(** * Browser session manager and tool actions of [mcp_playwright_tools.py]

    A shallow embedding of the [PlaywrightManager] singleton and of the
    tools registered on the FastMCP server.  The Playwright engine, the
    file system and the process table are outside the program: they are
    modelled as an oracle that answers every call from the history of the
    calls made so far, either with a value or with a raised exception.  The program itself is written in a state-and-exception
    monad over the manager's fields, the history of engine calls and the
    log. *)

From Stdlib Require Import ZArith String Ascii List Bool Lia DecimalString.
Import ListNotations.
Local Open Scope string_scope.
Local Open Scope Z_scope.

(** ** Python values reaching the tools *)

(** Tool arguments are dynamically typed; the tools test them with
    truthiness and [isinstance]. *)
Inductive PyVal : Type :=
| PyNone
| PyBool (b : bool)
| PyInt (z : Z)
| PyStr (s : string).

Definition str_empty (s : string) : bool :=
  match s with EmptyString => true | String _ _ => false end.

(** [bool(v)] *)
Definition truthy (v : PyVal) : bool :=
  match v with
  | PyNone => false
  | PyBool b => b
  | PyInt z => negb (z =? 0)
  | PyStr s => negb (str_empty s)
  end.

(** [isinstance(v, str)] *)
Definition isinstance_str (v : PyVal) : bool :=
  match v with PyStr _ => true | _ => false end.

(** [isinstance(v, int)]: [bool] is a subclass of [int]. *)
Definition isinstance_int (v : PyVal) : bool :=
  match v with PyInt _ | PyBool _ => true | _ => false end.

Definition dec (z : Z) : string := NilZero.string_of_int (Z.to_int z).

(** [str(v)], as used by f-strings. *)
Definition py_str (v : PyVal) : string :=
  match v with
  | PyNone => "None"
  | PyBool true => "True"
  | PyBool false => "False"
  | PyInt z => dec z
  | PyStr s => s
  end.

(** ** Strings, paths and time stamps *)

Fixpoint ends_with_slash (s : string) : bool :=
  match s with
  | EmptyString => false
  | String c EmptyString => Ascii.eqb c "/"
  | String _ rest => ends_with_slash rest
  end.

(** [os.path.join(a, b)] of [posixpath]. *)
Definition os_path_join (a b : string) : string :=
  if String.prefix "/" b then b
  else if str_empty a || ends_with_slash a then a ++ b
  else a ++ "/" ++ b.

Record Datetime : Type := mkDatetime {
  dt_year : Z; dt_month : Z; dt_day : Z;
  dt_hour : Z; dt_minute : Z; dt_second : Z
}.

Definition pad2 (z : Z) : string :=
  if z <? 10 then "0" ++ dec z else dec z.

Definition pad4 (z : Z) : string :=
  if z <? 10 then "000" ++ dec z
  else if z <? 100 then "00" ++ dec z
  else if z <? 1000 then "0" ++ dec z
  else dec z.

(** [dt.strftime('%Y%m%d_%H%M%S')], with the zero padding of the Python
    documentation. *)
Definition strftime (dt : Datetime) : string :=
  pad4 (dt_year dt) ++ pad2 (dt_month dt) ++ pad2 (dt_day dt) ++ "_"
  ++ pad2 (dt_hour dt) ++ pad2 (dt_minute dt) ++ pad2 (dt_second dt).

Definition lower_ascii (c : ascii) : ascii :=
  let n := nat_of_ascii c in
  if (Nat.leb 65 n && Nat.leb n 90)%bool then ascii_of_nat (n + 32) else c.

(** [s.lower()] on ASCII text. *)
Fixpoint lower (s : string) : string :=
  match s with
  | EmptyString => EmptyString
  | String c rest => String (lower_ascii c) (lower rest)
  end.

(** [needle in s] *)
Fixpoint contains (needle s : string) : bool :=
  String.prefix needle s
  || match s with
     | EmptyString => false
     | String _ rest => contains needle rest
     end.

(** ** Exceptions *)

Inductive ExnClass : Type :=
| AttributeError
| NameError
| TypeError
| ValueError
| OSError
| TimeoutError
| PlaywrightError
| NoSuchProcess
| AccessDenied.

(** Every class above derives from [Exception]; [exn_str] is [str(e)]. *)
Record Exn : Type := mkExn { exn_class : ExnClass; exn_str : string }.

(** ** The engine interface *)

Definition Handle : Type := nat.

Record Process : Type := mkProcess {
  proc_pid : Z;
  proc_name : option string;
  proc_exe : option string
}.

(** One constructor per call that leaves the program; the index is the type
    of the value the call returns when it does not raise. *)
Inductive Op : Type -> Type :=
(* session construction and teardown *)
| PwStart : Op Handle
| Launch (pw : Handle) (browser_type : string) (headless : bool) : Op Handle
| NewContext (browser : Handle) (viewport : option (Z * Z)) : Op Handle
| NewPage (context : Handle) : Op Handle
| PageClose (page : Handle) : Op unit
| ContextClose (context : Handle) : Op unit
| BrowserClose (browser : Handle) : Op unit
| PwStop (pw : Handle) : Op unit
(* page capability *)
| Goto (page : Handle) (url wait_until : string) : Op unit
| WaitForLoadState (page : Handle) (state : string) (timeout : Z) : Op unit
| Fill (page : Handle) (selector text : string) : Op unit
| Click (page : Handle) (selector : string) (timeout : Z) : Op unit
| QuerySelector (page : Handle) (selector : PyVal) : Op (option Handle)
| QuerySelectorAll (page : Handle) (selector : string) : Op (list Handle)
| Evaluate (page : Handle) (script : string) (arg : option string) : Op PyVal
| Content (page : Handle) : Op string
| Title (page : Handle) : Op string
| Url (page : Handle) : Op string
| GoBack (page : Handle) : Op unit
| Reload (page : Handle) : Op unit
| Screenshot (page : Handle) (path : string) : Op unit
| Pdf (page : Handle) (path : string) (options : list (string * PyVal)) : Op unit
| KeyboardPress (page : Handle) (key : string) : Op unit
| ClearCookies (page : Handle) : Op unit
| Cookies (page : Handle) : Op (list (list (string * PyVal)))
(* element handles *)
| InnerHtml (element : Handle) : Op string
| InnerText (element : Handle) : Op string
| ElemEvaluate (element : Handle) (script : string) : Op PyVal
| ElemFill (element : Handle) (text : string) : Op unit
| ElemScreenshot (element : Handle) (path : string) : Op unit
(* scheduler, files, processes *)
| Sleep (milliseconds : Z) : Op unit
| WriteFile (path : PyVal) (content : string) : Op unit
| ProcessIter : Op (list Process)
| Terminate (pid : Z) : Op unit.

Inductive Call : Type :=
| MkCall {T : Type} (op : Op T).

(** The world outside the program.  [engine] answers a call from the
    history of earlier calls (newest first); [clock] is what
    [datetime.now()] reads after that history. *)
Record World : Type := mkWorld {
  tempdir : string;                 (* tempfile.gettempdir() *)
  work_dir : string;                (* os.path.dirname(__file__) *)
  clock : list Call -> Datetime;
  engine : forall T : Type, list Call -> Op T -> Exn + T
}.

(** ** The manager and the program state *)

Record PlaywrightManager : Type := mkManager {
  browser_type : string;
  headless : bool;
  viewport_width : Z;
  viewport_height : Z;
  playwright : option Handle;
  browser : option Handle;
  context : option Handle;
  page : option Handle
}.

(** [PlaywrightManager.__init__] on the first construction. *)
Definition init_manager (bt : string) (hl : bool) (viewer_port : Z * Z)
  : PlaywrightManager :=
  {| browser_type := bt; headless := hl;
     viewport_width := fst viewer_port; viewport_height := snd viewer_port;
     playwright := None; browser := None; context := None; page := None |}.

(** The module-level [pw_manager]. *)
Definition pw_manager0 : PlaywrightManager :=
  init_manager "chromium" false (1200, 900).

Inductive Level : Type := INFO | WARNING | ERROR.

Record State : Type := mkState {
  mgr : PlaywrightManager;
  trace : list Call;                (* engine calls, newest first *)
  logs : list (Level * string)      (* logger records, newest first *)
}.

Definition state0 : State :=
  {| mgr := pw_manager0; trace := []; logs := [] |}.

(** ** The monad of the tools *)

Definition M (A : Type) : Type := World -> State -> (Exn + A) * State.

Definition ret {A} (a : A) : M A := fun _ s => (inr a, s).

Definition bind {A B} (m : M A) (k : A -> M B) : M B :=
  fun w s =>
    match m w s with
    | (inr a, s') => k a w s'
    | (inl e, s') => (inl e, s')
    end.

Definition raise {A} (e : Exn) : M A := fun _ s => (inl e, s).

(** [try: body  except Exception as e: handler e] *)
Definition try_except {A} (body : M A) (handler : Exn -> M A) : M A :=
  fun w s =>
    match body w s with
    | (inr a, s') => (inr a, s')
    | (inl e, s') => handler e w s'
    end.

Notation "x <- m ;; k" := (bind m (fun x => k))
  (at level 61, m at next level, right associativity).
Notation "m ;; k" := (bind m (fun _ => k))
  (at level 61, right associativity).

(** [await] of an engine call: the call is recorded and the world answers. *)
Definition call {T} (op : Op T) : M T :=
  fun w s =>
    (engine w T (trace s) op,
     {| mgr := mgr s; trace := MkCall op :: trace s; logs := logs s |}).

Definition log (lvl : Level) (msg : string) : M unit :=
  fun _ s =>
    (inr tt, {| mgr := mgr s; trace := trace s; logs := (lvl, msg) :: logs s |}).

Definition self : M PlaywrightManager := fun _ s => (inr (mgr s), s).

Definition update (f : PlaywrightManager -> PlaywrightManager) : M unit :=
  fun _ s => (inr tt, {| mgr := f (mgr s); trace := trace s; logs := logs s |}).

Definition set_browser_type (v : string) : M unit :=
  update (fun m =>
    {| browser_type := v; headless := headless m;
       viewport_width := viewport_width m; viewport_height := viewport_height m;
       playwright := playwright m; browser := browser m;
       context := context m; page := page m |}).

Definition set_headless (v : bool) : M unit :=
  update (fun m =>
    {| browser_type := browser_type m; headless := v;
       viewport_width := viewport_width m; viewport_height := viewport_height m;
       playwright := playwright m; browser := browser m;
       context := context m; page := page m |}).

Definition set_playwright (v : option Handle) : M unit :=
  update (fun m =>
    {| browser_type := browser_type m; headless := headless m;
       viewport_width := viewport_width m; viewport_height := viewport_height m;
       playwright := v; browser := browser m;
       context := context m; page := page m |}).

Definition set_browser (v : option Handle) : M unit :=
  update (fun m =>
    {| browser_type := browser_type m; headless := headless m;
       viewport_width := viewport_width m; viewport_height := viewport_height m;
       playwright := playwright m; browser := v;
       context := context m; page := page m |}).

Definition set_context (v : option Handle) : M unit :=
  update (fun m =>
    {| browser_type := browser_type m; headless := headless m;
       viewport_width := viewport_width m; viewport_height := viewport_height m;
       playwright := playwright m; browser := browser m;
       context := v; page := page m |}).

Definition set_page (v : option Handle) : M unit :=
  update (fun m =>
    {| browser_type := browser_type m; headless := headless m;
       viewport_width := viewport_width m; viewport_height := viewport_height m;
       playwright := playwright m; browser := browser m;
       context := context m; page := v |}).

(** Attribute access on a field that may hold [None]. *)
Definition deref (o : option Handle) : M Handle :=
  match o with
  | Some h => ret h
  | None =>
      raise (mkExn AttributeError "'NoneType' object has no attribute")
  end.

(** [if not field: body] *)
Definition if_not (o : option Handle) (body : M unit) : M unit :=
  match o with None => body | Some _ => ret tt end.

(** [if field: body field] *)
Definition if_set (o : option Handle) (body : Handle -> M unit) : M unit :=
  match o with Some h => body h | None => ret tt end.

(** ** PlaywrightManager.ensure_browser *)

Definition ensure_browser : M Handle :=
  m <- self ;;
  if_not (playwright m)
    (log INFO "Starting Playwright" ;;
     pw <- call PwStart ;;
     set_playwright (Some pw)) ;;
  m <- self ;;
  if_not (browser m)
    (log INFO ("Launching " ++ browser_type m ++ " browser") ;;
     pw <- deref (playwright m) ;;
     b <- call (Launch pw (browser_type m) (headless m)) ;;
     set_browser (Some b) ;;
     c <- call (NewContext b (Some (viewport_width m, viewport_height m))) ;;
     set_context (Some c) ;;
     log INFO "Browser context created with custom viewport" ;;
     p <- call (NewPage c) ;;
     set_page (Some p)) ;;
  m <- self ;;
  if_not (context m)
    (log INFO "Creating new browser context" ;;
     b <- deref (browser m) ;;
     c <- call (NewContext b None) ;;
     set_context (Some c)) ;;
  m <- self ;;
  if_not (page m)
    (log INFO "Creating new page" ;;
     c <- deref (context m) ;;
     p <- call (NewPage c) ;;
     set_page (Some p)) ;;
  m <- self ;;
  deref (page m).

(** ** PlaywrightManager.close *)

Definition close : M unit :=
  log INFO "Closing browser resources" ;;
  m <- self ;;
  if_set (page m) (fun p => call (PageClose p) ;; set_page None) ;;
  m <- self ;;
  if_set (context m) (fun c => call (ContextClose c) ;; set_context None) ;;
  m <- self ;;
  if_set (browser m) (fun b => call (BrowserClose b) ;; set_browser None) ;;
  m <- self ;;
  if_set (playwright m) (fun pw => call (PwStop pw) ;; set_playwright None).

(** ** Control flow of the tools *)

(** [try: body  except Exception as e: return handler e], followed by
    [rest].  [body] yields [Some v] where the source returns [v] from inside
    the [try] block and [None] where control falls out of it. *)
Definition try_then {A} (body : M (option A)) (handler : Exn -> M A)
    (rest : M A) : M A :=
  fun w s =>
    match body w s with
    | (inr (Some v), s') => (inr v, s')
    | (inr None, s') => rest w s'
    | (inl e, s') => handler e w s'
    end.

(** [except (C1, C2) as e]: other classes keep propagating. *)
Definition try_except_only {A} (caught : ExnClass -> bool) (body : M A)
    (handler : Exn -> M A) : M A :=
  fun w s =>
    match body w s with
    | (inr a, s') => (inr a, s')
    | (inl e, s') =>
        if caught (exn_class e) then handler e w s' else (inl e, s')
    end.

Fixpoint for_each {A} (items : list A) (body : A -> M unit) : M unit :=
  match items with
  | [] => ret tt
  | x :: rest => body x ;; for_each rest body
  end.

Definition get_tempdir : M string := fun w s => (inr (tempdir w), s).
Definition get_work_dir : M string := fun w s => (inr (work_dir w), s).

(** [datetime.now().strftime('%Y%m%d_%H%M%S')] *)
Definition timestamp_now : M string :=
  fun w s => (inr (strftime (clock w (trace s))), s).

(** [if not v or not isinstance(v, str)] *)
Definition not_nonempty_str (v : PyVal) : bool :=
  negb (truthy v) || negb (isinstance_str v).

(** ** The registered tools *)

(** [pw_manager] is bound at import time and never rebound, so the
    [pw_manager is None] branch of the source is not taken. *)
Definition browser_navigate (url : PyVal) : M string :=
  if not_nonempty_str url then ret "Error: URL must be a non-empty string"
  else
    page <- ensure_browser ;;
    log INFO ("Navigating to " ++ py_str url) ;;
    try_then
      (call (Goto page (py_str url) "domcontentloaded") ;;
       call (WaitForLoadState page "load" 5000) ;;
       ret None)
      (fun e =>
         log WARNING ("Page load timeout or error: " ++ exn_str e) ;;
         ret ("Error navigating to " ++ py_str url ++ ": " ++ exn_str e))
      (ret ("Navigated to " ++ py_str url)).

Definition browser_close : M string :=
  close ;;
  ret "Browser closed".

Definition is_playwright_chrome (p : Process) : bool :=
  match proc_name p with
  | None => false
  | Some name =>
      negb (str_empty name) && contains "chrome" (lower name)
      && match proc_exe p with
         | None => false
         | Some exe =>
             negb (str_empty exe) && contains "playwright" (lower exe)
         end
  end.

Definition psutil_gone_or_denied (c : ExnClass) : bool :=
  match c with NoSuchProcess | AccessDenied => true | _ => false end.

Definition kill_all_chrome_instances : M string :=
  log INFO "Attempting to kill all Chrome instances generated via Playwright." ;;
  try_except
    (procs <- call ProcessIter ;;
     for_each procs (fun process =>
       try_except_only psutil_gone_or_denied
         (if is_playwright_chrome process then
            log INFO ("Terminating process: "
                      ++ py_str (match proc_name process with
                                 | Some n => PyStr n | None => PyNone end)
                      ++ " (PID: " ++ dec (proc_pid process)
                      ++ ", Path: "
                      ++ py_str (match proc_exe process with
                                 | Some x => PyStr x | None => PyNone end)
                      ++ ")") ;;
            call (Terminate (proc_pid process))
          else ret tt)
         (fun e => log WARNING ("Could not terminate process: " ++ exn_str e))) ;;
     ret "All Chrome instances generated via Playwright have been terminated.")
    (fun e =>
       let error_msg := "Failed to kill Chrome instances: " ++ exn_str e in
       log ERROR error_msg ;;
       ret error_msg).

Definition browser_fill (selector text : PyVal) : M string :=
  if not_nonempty_str selector then
    ret "Error: Selector must be a non-empty string"
  else if negb (isinstance_str text) then ret "Error: Text must be a string"
  else
    page <- ensure_browser ;;
    log INFO ("Filling text in selector: " ++ py_str selector) ;;
    try_then
      (call (Fill page (py_str selector) (py_str text)) ;; ret None)
      (fun e =>
         let error_msg := "Could not fill element: " ++ exn_str e in
         log ERROR error_msg ;;
         ret error_msg)
      (ret ("Filled text in element with selector '" ++ py_str selector ++ "'")).

Definition browser_find_by_xpath (xpath : PyVal) : M string :=
  if not_nonempty_str xpath then ret "Error: XPath must be a non-empty string"
  else
    let xpath :=
      if negb (String.prefix "//" (py_str xpath))
         && negb (String.prefix "xpath=" (py_str xpath))
      then "xpath=" ++ py_str xpath else py_str xpath in
    page <- ensure_browser ;;
    log INFO ("Finding elements with XPath: " ++ xpath) ;;
    try_except
      (found <- call (QuerySelectorAll page xpath) ;;
       let count := Z.of_nat (length found) in
       ret ("Found " ++ dec count ++ " elements matching XPath '" ++ xpath ++ "'"))
      (fun e =>
         let error_msg := "Error finding elements: " ++ exn_str e in
         log ERROR error_msg ;;
         ret error_msg).

Definition browser_go_back : M string :=
  page <- ensure_browser ;;
  log INFO "Navigating back" ;;
  call (GoBack page) ;;
  ret "Navigated back".

Definition browser_reload : M string :=
  page <- ensure_browser ;;
  log INFO "Reloading page" ;;
  call (Reload page) ;;
  ret "Page reloaded".

Definition browser_click (selector : PyVal) : M string :=
  if not_nonempty_str selector then
    ret "Error: Selector must be a non-empty string"
  else
    page <- ensure_browser ;;
    log INFO ("Clicking element with selector: " ++ py_str selector) ;;
    try_then
      (call (Click page (py_str selector) 5000) ;; ret None)
      (fun e =>
         let error_msg := "Could not click element: " ++ exn_str e in
         log ERROR error_msg ;;
         ret error_msg)
      (ret ("Clicked element with selector '" ++ py_str selector ++ "'")).

(** Lines 348-354 of [browser_save_as_pdf]: the reconfiguration of the
    session followed by the acquisition of the page. *)
Definition pdf_reconfigure : M Handle :=
  m <- self ;;
  (if negb (String.eqb (browser_type m) "chromium") || negb (headless m) then
     close ;;
     set_browser_type "chromium" ;;
     set_headless false
   else ret tt) ;;
  ensure_browser.

Definition browser_save_as_pdf (landscape format : PyVal) : M string :=
  page <- pdf_reconfigure ;;
  log INFO "Generating PDF" ;;
  timestamp <- timestamp_now ;;
  tmp <- get_tempdir ;;
  let file_name := os_path_join tmp ("page_" ++ timestamp ++ ".pdf") in
  let pdf_options :=
    ((if truthy landscape then [("landscape", PyBool true)] else [])
     ++ (if truthy format then [("format", format)] else []))%list in
  try_then
    (call (Pdf page file_name pdf_options) ;; ret None)
    (fun e =>
       let error_msg := "Failed to generate PDF: " ++ exn_str e in
       log ERROR error_msg ;;
       ret error_msg)
    (ret ("PDF saved to " ++ file_name)).

(** [file_path] is accepted and never read. *)
Definition browser_screenshot (selector file_path : PyVal) : M string :=
  page <- ensure_browser ;;
  log INFO "Taking screenshot" ;;
  timestamp <- timestamp_now ;;
  tmp <- get_tempdir ;;
  let file_name := os_path_join tmp ("screenshot_" ++ timestamp ++ ".png") in
  try_then
    (if truthy selector then
       log INFO ("Taking screenshot of element: " ++ py_str selector) ;;
       element <- call (QuerySelector page selector) ;;
       match element with
       | None =>
           ret (Some ("Error: Could not find element with selector '"
                      ++ py_str selector ++ "'"))
       | Some el => call (ElemScreenshot el file_name) ;; ret None
       end
     else call (Screenshot page file_name) ;; ret None)
    (fun e =>
       let error_msg := "Failed to take screenshot: " ++ exn_str e in
       log ERROR error_msg ;;
       ret error_msg)
    (ret ("Screenshot saved to " ++ file_name)).

Definition scroll_to_top_js : string :=
"() => {
            window.scrollTo({
                top: 0,
                left: 0,
                behavior: 'smooth'
            });
        }".

Definition browser_scroll_to_top : M string :=
  page <- ensure_browser ;;
  log INFO "Scrolling to top of page" ;;
  try_except
    (call (Evaluate page scroll_to_top_js None) ;;
     call (Sleep 500) ;;
     ret "Scrolled to top of page")
    (fun e =>
       let error_msg := "Failed to scroll to top: " ++ exn_str e in
       log ERROR error_msg ;;
       ret error_msg).

Definition scroll_to_bottom_js : string :=
"() => {
            const scrollHeight = Math.max(
                document.body.scrollHeight,
                document.documentElement.scrollHeight,
                document.body.offsetHeight,
                document.documentElement.offsetHeight,
                document.body.clientHeight,
                document.documentElement.clientHeight
            );
            
            window.scrollTo({
                top: scrollHeight,
                left: 0,
                behavior: 'smooth'
            });
        }".

(** The handler of this tool re-raises as [ValueError]. *)
Definition browser_scroll_to_bottom : M string :=
  page <- ensure_browser ;;
  log INFO "Scrolling to bottom of page" ;;
  try_except
    (call (Evaluate page scroll_to_bottom_js None) ;;
     call (Sleep 500) ;;
     ret "Scrolled to bottom of page")
    (fun e =>
       let error_msg := "Failed to scroll to bottom: " ++ exn_str e in
       log ERROR error_msg ;;
       raise (mkExn ValueError error_msg)).

Definition scroll_to_element_js : string :=
"
            (selector) => {
                const element = document.querySelector(selector);
                if (element) {
                    element.scrollIntoView({
                        behavior: 'smooth',
                        block: 'center'
                    });
                }
            }
        ".

Definition browser_scroll_to_element (selector : PyVal) : M string :=
  if not_nonempty_str selector then
    ret "Error: Selector must be a non-empty string"
  else
    page <- ensure_browser ;;
    log INFO ("Scrolling to element with selector: " ++ py_str selector) ;;
    try_except
      (element <- call (QuerySelector page selector) ;;
       match element with
       | None => ret ("Error: No element found with selector: " ++ py_str selector)
       | Some _ =>
           call (Evaluate page scroll_to_element_js (Some (py_str selector))) ;;
           call (Sleep 500) ;;
           ret ("Scrolled to element with selector '" ++ py_str selector ++ "'")
       end)
      (fun e =>
         let error_msg := "Failed to scroll to element: " ++ exn_str e in
         log ERROR error_msg ;;
         ret error_msg).

Definition get_current_url : M string :=
  page <- ensure_browser ;;
  url <- call (Url page) ;;
  ret url.

Definition get_element_html (xpath : PyVal) : M string :=
  if not_nonempty_str xpath then ret "Error: XPath must be a non-empty string"
  else
    page <- ensure_browser ;;
    log INFO ("Getting HTML content from element with XPath: " ++ py_str xpath) ;;
    try_except
      (element <- call (QuerySelector page (PyStr ("xpath=" ++ py_str xpath))) ;;
       match element with
       | None => ret ("Error: No element found with XPath: " ++ py_str xpath)
       | Some el =>
           html_content <- call (InnerHtml el) ;;
           ret html_content
       end)
      (fun e =>
         let error_msg := "Error getting element HTML: " ++ exn_str e in
         log ERROR error_msg ;;
         ret error_msg).

Definition get_element_text (xpath : PyVal) : M string :=
  if not_nonempty_str xpath then ret "Error: XPath must be a non-empty string"
  else
    page <- ensure_browser ;;
    log INFO ("Getting text from element with XPath: " ++ py_str xpath) ;;
    try_except
      (element <- call (QuerySelector page (PyStr ("xpath=" ++ py_str xpath))) ;;
       match element with
       | None => ret ("Error: No element found with XPath: " ++ py_str xpath)
       | Some el =>
           text <- call (InnerText el) ;;
           ret text
       end)
      (fun e =>
         let error_msg := "Error getting element text: " ++ exn_str e in
         log ERROR error_msg ;;
         ret error_msg).

Definition page_content_js : string :=
"() => {
        return document.body.innerText;
    }".

(** The result is whatever the script evaluates to. *)
Definition get_page_content : M PyVal :=
  page <- ensure_browser ;;
  text_content <- call (Evaluate page page_content_js None) ;;
  ret text_content.

Definition get_page_html : M string :=
  page <- ensure_browser ;;
  html_content <- call (Content page) ;;
  ret html_content.

Definition get_page_title : M string :=
  page <- ensure_browser ;;
  title <- call (Title page) ;;
  ret title.

Definition element_document (xpath html_content : string) : string :=
"<!DOCTYPE html>
        <html>
        <head>
            <meta charset='utf-8'>
            <title>Extracted Element HTML</title>
        </head>
        <body>
            <!-- Element with XPath: " ++ xpath ++ " -->
            " ++ html_content ++ "
        </body>
        </html>".

Definition save_element_as_html (xpath file_path : PyVal) : M string :=
  if not_nonempty_str xpath then ret "Error: XPath must be a non-empty string"
  else
    page <- ensure_browser ;;
    log INFO ("Saving HTML content of element with XPath: " ++ py_str xpath) ;;
    file_path <-
      (if negb (truthy file_path) then
         timestamp <- timestamp_now ;;
         wd <- get_work_dir ;;
         ret (PyStr (os_path_join wd ("element_" ++ timestamp ++ ".html")))
       else ret file_path) ;;
    try_except
      (element <- call (QuerySelector page (PyStr ("xpath=" ++ py_str xpath))) ;;
       match element with
       | None => ret ("Error: No element found with XPath: " ++ py_str xpath)
       | Some el =>
           html_content <- call (ElemEvaluate el "(node) => node.outerHTML") ;;
           if negb (truthy html_content) then
             ret ("Error: Could not extract HTML from element with XPath: "
                  ++ py_str xpath)
           else
             let full_html :=
               element_document (py_str xpath) (py_str html_content) in
             call (WriteFile file_path full_html) ;;
             ret ("Element HTML saved to " ++ py_str file_path)
       end)
      (fun e =>
         let error_msg := "Failed to save element HTML: " ++ exn_str e in
         log ERROR error_msg ;;
         ret error_msg).

Definition save_page_as_html (file_path : PyVal) : M string :=
  page <- ensure_browser ;;
  log INFO "Saving current page as HTML" ;;
  file_path <-
    (if negb (truthy file_path) then
       timestamp <- timestamp_now ;;
       wd <- get_work_dir ;;
       ret (PyStr (os_path_join wd ("page_" ++ timestamp ++ ".html")))
     else ret file_path) ;;
  try_then
    (html_content <- call (Content page) ;;
     call (WriteFile file_path html_content) ;;
     ret None)
    (fun e =>
       let error_msg := "Failed to save HTML: " ++ exn_str e in
       log ERROR error_msg ;;
       ret error_msg)
    (ret ("HTML saved to " ++ py_str file_path)).

Definition type_name (v : PyVal) : string :=
  match v with
  | PyNone => "NoneType"
  | PyBool _ => "bool"
  | PyInt _ => "int"
  | PyStr _ => "str"
  end.

(** [os.path.join(p)] with a single component: [os.fspath(p)]. *)
Definition os_path_join1 (p : PyVal) : M string :=
  match p with
  | PyStr s => ret s
  | _ =>
      raise (mkExn TypeError
               ("expected str, bytes or os.PathLike object, not " ++ type_name p))
  end.

Definition save_page_screenshot (file_path : PyVal) : M string :=
  page <- ensure_browser ;;
  log INFO "Taking screenshot of the current page" ;;
  file_path <-
    (if negb (truthy file_path) then
       timestamp <- timestamp_now ;;
       wd <- get_work_dir ;;
       ret (os_path_join wd ("screenshot_" ++ timestamp ++ ".png"))
     else os_path_join1 file_path) ;;
  try_then
    (call (Screenshot page file_path) ;; ret None)
    (fun e =>
       let error_msg := "Failed to take screenshot: " ++ exn_str e in
       log ERROR error_msg ;;
       ret error_msg)
    (ret ("Screenshot saved to " ++ file_path)).

Definition clear_field (xpath : PyVal) : M string :=
  if not_nonempty_str xpath then ret "Error: XPath must be a non-empty string"
  else
    page <- ensure_browser ;;
    log INFO ("Clearing content of input field with XPath: " ++ py_str xpath) ;;
    try_except
      (element <- call (QuerySelector page (PyStr ("xpath=" ++ py_str xpath))) ;;
       match element with
       | None => ret ("Error: No input field found with XPath: " ++ py_str xpath)
       | Some el =>
           call (ElemFill el "") ;;
           ret ("Cleared content of input field with XPath: " ++ py_str xpath)
       end)
      (fun e =>
         let error_msg := "Failed to clear input field: " ++ exn_str e in
         log ERROR error_msg ;;
         ret error_msg).

Definition browser_press_key (key : PyVal) : M string :=
  if not_nonempty_str key then ret "Error: Key must be a non-empty string"
  else
    page <- ensure_browser ;;
    log INFO ("Pressing key: " ++ py_str key) ;;
    try_then
      (call (KeyboardPress page (py_str key)) ;; ret None)
      (fun e =>
         let error_msg := "Error pressing key: " ++ exn_str e in
         log ERROR error_msg ;;
         ret error_msg)
      (ret ("Pressed key " ++ py_str key)).

Definition browser_scroll_one_step (step : PyVal) : M string :=
  if negb (isinstance_int step) then ret "Error: Step must be an integer"
  else
    page <- ensure_browser ;;
    log INFO ("Scrolling the page by " ++ py_str step ++ " pixels") ;;
    try_except
      (call (Evaluate page ("window.scrollBy(0, " ++ py_str step ++ ")") None) ;;
       ret ("Scrolled the page by " ++ py_str step ++ " pixels"))
      (fun e =>
         let error_msg := "Failed to scroll the page: " ++ exn_str e in
         log ERROR error_msg ;;
         ret error_msg).

Definition clear_browser_data : M string :=
  page <- ensure_browser ;;
  log INFO "Clearing browser data" ;;
  call (ClearCookies page) ;;
  call (Evaluate page "() => { localStorage.clear(); sessionStorage.clear(); }" None) ;;
  ret "Browser data cleared".

(** The module never imports [json]: looking the name up raises. *)
Definition get_cookies : M string :=
  page <- ensure_browser ;;
  log INFO "Getting cookies" ;;
  cookies <- call (Cookies page) ;;
  raise (mkExn NameError "name 'json' is not defined").

(** ** The tool registry *)

(** One constructor per [@mcp.tool] registration, carrying the arguments of
    the call; an omitted optional argument is its default ([PyNone],
    [PyBool false], [PyInt 100]). *)
Inductive Tool : Type :=
| Browser_Navigate (url : PyVal)
| Browser_Close
| Kill_All_Chrome_Instances
| Browser_Fill (selector text : PyVal)
| Browser_Find_By_XPath (xpath : PyVal)
| Browser_Go_Back
| Browser_Reload
| Browser_Click (selector : PyVal)
| Browser_Save_As_PDF (landscape format : PyVal)
| Browser_Screenshot (selector file_path : PyVal)
| Browser_Scroll_To_Top
| Browser_Scroll_To_Bottom
| Browser_Scroll_To_Element (selector : PyVal)
| Get_Current_URL
| Get_Element_HTML (xpath : PyVal)
| Get_Element_Text (xpath : PyVal)
| Get_Page_Content
| Get_Page_HTML
| Get_Page_Title
| Save_Element_As_HTML (xpath file_path : PyVal)
| Save_Page_As_HTML (file_path : PyVal)
| Save_Page_Screenshot (file_path : PyVal)
| Clear_Field (xpath : PyVal)
| Browser_Press_Key (key : PyVal)
| Browser_Scroll_One_Step (step : PyVal)
| Clear_Browser_Data
| Get_Cookies.

Definition returning_str (m : M string) : M PyVal :=
  r <- m ;; ret (PyStr r).

(** What the caller of the dispatch layer gets: the value the tool returns,
    or the exception it lets through. *)
Definition run_tool (t : Tool) : M PyVal :=
  match t with
  | Browser_Navigate url => returning_str (browser_navigate url)
  | Browser_Close => returning_str browser_close
  | Kill_All_Chrome_Instances => returning_str kill_all_chrome_instances
  | Browser_Fill selector text => returning_str (browser_fill selector text)
  | Browser_Find_By_XPath xpath => returning_str (browser_find_by_xpath xpath)
  | Browser_Go_Back => returning_str browser_go_back
  | Browser_Reload => returning_str browser_reload
  | Browser_Click selector => returning_str (browser_click selector)
  | Browser_Save_As_PDF landscape format =>
      returning_str (browser_save_as_pdf landscape format)
  | Browser_Screenshot selector file_path =>
      returning_str (browser_screenshot selector file_path)
  | Browser_Scroll_To_Top => returning_str browser_scroll_to_top
  | Browser_Scroll_To_Bottom => returning_str browser_scroll_to_bottom
  | Browser_Scroll_To_Element selector =>
      returning_str (browser_scroll_to_element selector)
  | Get_Current_URL => returning_str get_current_url
  | Get_Element_HTML xpath => returning_str (get_element_html xpath)
  | Get_Element_Text xpath => returning_str (get_element_text xpath)
  | Get_Page_Content => get_page_content
  | Get_Page_HTML => returning_str get_page_html
  | Get_Page_Title => returning_str get_page_title
  | Save_Element_As_HTML xpath file_path =>
      returning_str (save_element_as_html xpath file_path)
  | Save_Page_As_HTML file_path => returning_str (save_page_as_html file_path)
  | Save_Page_Screenshot file_path =>
      returning_str (save_page_screenshot file_path)
  | Clear_Field xpath => returning_str (clear_field xpath)
  | Browser_Press_Key key => returning_str (browser_press_key key)
  | Browser_Scroll_One_Step step => returning_str (browser_scroll_one_step step)
  | Clear_Browser_Data => returning_str clear_browser_data
  | Get_Cookies => returning_str get_cookies
  end.

(** [n] successive calls of [ensure_browser], with the pages they return. *)
Fixpoint acquire_n (n : nat) : M (list Handle) :=
  match n with
  | O => ret []
  | S k =>
      p <- ensure_browser ;;
      ps <- acquire_n k ;;
      ret (p :: ps)
  end.

(** ** Observations on states and histories *)

Definition session_empty (m : PlaywrightManager) : Prop :=
  page m = None /\ context m = None /\ browser m = None /\ playwright m = None.

Definition session_full (m : PlaywrightManager) : Prop :=
  exists pw b c p,
    playwright m = Some pw /\ browser m = Some b
    /\ context m = Some c /\ page m = Some p.

Definition same_config (m m' : PlaywrightManager) : Prop :=
  browser_type m' = browser_type m /\ headless m' = headless m
  /\ viewport_width m' = viewport_width m
  /\ viewport_height m' = viewport_height m.

(** The path handed to a write primitive, for the calls that write a file. *)
Definition written_path (c : Call) : option PyVal :=
  match c with
  | MkCall (Screenshot _ path) => Some (PyStr path)
  | MkCall (ElemScreenshot _ path) => Some (PyStr path)
  | MkCall (Pdf _ path _) => Some (PyStr path)
  | MkCall (WriteFile path _) => Some path
  | MkCall _ => None
  end.

Definition is_query (c : Call) : bool :=
  match c with
  | MkCall (QuerySelector _ _) => true
  | MkCall (QuerySelectorAll _ _) => true
  | MkCall _ => false
  end.

Definition is_teardown (c : Call) : bool :=
  match c with
  | MkCall (PageClose _) => true
  | MkCall (ContextClose _) => true
  | MkCall (BrowserClose _) => true
  | MkCall (PwStop _) => true
  | MkCall _ => false
  end.

Definition is_construction (c : Call) : bool :=
  match c with
  | MkCall PwStart => true
  | MkCall (Launch _ _ _) => true
  | MkCall (NewContext _ _) => true
  | MkCall (NewPage _) => true
  | MkCall _ => false
  end.

(** The close and stop calls of a complete teardown of [m], in the order
    they are issued. *)
Definition teardown_calls (m : PlaywrightManager) : list Call :=
  (match page m with Some p => [MkCall (PageClose p)] | None => [] end)
  ++ (match context m with Some c => [MkCall (ContextClose c)] | None => [] end)
  ++ (match browser m with Some b => [MkCall (BrowserClose b)] | None => [] end)
  ++ (match playwright m with Some pw => [MkCall (PwStop pw)] | None => [] end).

(** [grown_by P t t']: the history [t'] is [t] with newer calls in front,
    each of them satisfying [P]. *)
Inductive grown_by (P : Call -> Prop) (t : list Call) : list Call -> Prop :=
| grown_refl : grown_by P t t
| grown_cons (c : Call) (t' : list Call) :
    P c -> grown_by P t t' -> grown_by P t (c :: t').

(** ** Vocabulary of the statements *)

(** The tools whose calls on the page sit in a [try] block with a handler
    that returns a message.  [Save-Page-Screenshot] normalises a supplied
    path with [os.path.join] before its [try] block, which raises on a
    path that is not a string. *)
Definition catches_page_errors (t : Tool) : bool :=
  match t with
  | Browser_Navigate _ | Kill_All_Chrome_Instances | Browser_Fill _ _
  | Browser_Find_By_XPath _ | Browser_Click _ | Browser_Save_As_PDF _ _
  | Browser_Screenshot _ _ | Browser_Scroll_To_Top
  | Browser_Scroll_To_Element _ | Get_Element_HTML _ | Get_Element_Text _
  | Save_Element_As_HTML _ _ | Save_Page_As_HTML _ | Clear_Field _
  | Browser_Press_Key _ | Browser_Scroll_One_Step _ => true
  | Save_Page_Screenshot file_path =>
      negb (truthy file_path) || isinstance_str file_path
  | _ => false
  end.

(** How a tool obtains its page. *)
Definition acquisition (t : Tool) : M Handle :=
  match t with
  | Browser_Save_As_PDF _ _ => pdf_reconfigure
  | _ => ensure_browser
  end.

Definition nonempty_string (v : PyVal) : Prop :=
  exists s, v = PyStr s /\ s <> "".

(** A call whose validated argument is malformed: a selector, URL, XPath or
    key that is not a non-empty string, a fill text that is not a string,
    a scroll step that is not an integer. *)
Definition malformed (t : Tool) : Prop :=
  match t with
  | Browser_Navigate v | Browser_Find_By_XPath v | Browser_Click v
  | Browser_Scroll_To_Element v | Get_Element_HTML v | Get_Element_Text v
  | Save_Element_As_HTML v _ | Clear_Field v | Browser_Press_Key v =>
      ~ nonempty_string v
  | Browser_Fill selector text =>
      ~ nonempty_string selector \/ (forall s, text <> PyStr s)
  | Browser_Scroll_One_Step step =>
      (forall z, step <> PyInt z) /\ (forall b, step <> PyBool b)
  | _ => False
  end.

(** A file-writing tool called without a path of its own. *)
Definition without_path (t : Tool) : Prop :=
  match t with
  | Browser_Save_As_PDF _ _ => True
  | Browser_Screenshot _ file_path | Save_Element_As_HTML _ file_path
  | Save_Page_As_HTML file_path | Save_Page_Screenshot file_path =>
      truthy file_path = false
  | _ => False
  end.


Definition default_name (t : Tool) (stamp : string) : string :=
  match t with
  | Browser_Save_As_PDF _ _ => "page_" ++ stamp ++ ".pdf"
  | Browser_Screenshot _ _ | Save_Page_Screenshot _ =>
      "screenshot_" ++ stamp ++ ".png"
  | Save_Page_As_HTML _ => "page_" ++ stamp ++ ".html"
  | Save_Element_As_HTML _ _ => "element_" ++ stamp ++ ".html"
  | _ => ""
  end.


(** ** Sample worlds *)

Definition sample_now : Datetime := mkDatetime 2024 1 2 3 4 5.

(** Every call succeeds; pages are blank, so no selector matches and the
    engine's own click and fill time out. *)
Definition blank_engine (T : Type) (h : list Call) (op : Op T) : Exn + T :=
  match op in Op T return Exn + T with
  | PwStart => inr (S (length h))
  | Launch _ _ _ => inr (S (length h))
  | NewContext _ _ => inr (S (length h))
  | NewPage _ => inr (S (length h))
  | PageClose _ | ContextClose _ | BrowserClose _ | PwStop _ => inr tt
  | Goto _ _ _ | WaitForLoadState _ _ _ => inr tt
  | Fill _ selector _ =>
      inl (mkExn TimeoutError
             ("Page.fill: Timeout 30000ms exceeded waiting for " ++ selector))
  | Click _ selector _ =>
      inl (mkExn TimeoutError
             ("Page.click: Timeout 5000ms exceeded waiting for " ++ selector))
  | QuerySelector _ _ => inr None
  | QuerySelectorAll _ _ => inr []
  | Evaluate _ _ _ => inr PyNone
  | Content _ => inr "<html><head></head><body></body></html>"
  | Title _ => inr ""
  | Url _ => inr "about:blank"
  | GoBack _ | Reload _ => inr tt
  | Screenshot _ _ => inr tt
  | Pdf _ _ _ => inr tt
  | KeyboardPress _ _ => inr tt
  | ClearCookies _ => inr tt
  | Cookies _ => inr []
  | InnerHtml _ | InnerText _ => inr ""
  | ElemEvaluate _ _ => inr (PyStr "")
  | ElemFill _ _ | ElemScreenshot _ _ => inr tt
  | Sleep _ => inr tt
  | WriteFile _ _ => inr tt
  | ProcessIter => inr []
  | Terminate _ => inr tt
  end.

Definition blank_world : World :=
  {| tempdir := "/tmp"; work_dir := "/srv/app";
     clock := fun _ => sample_now; engine := blank_engine |}.

Definition target_closed : Exn :=
  mkExn PlaywrightError "Target page, context or browser has been closed".

(** The browser window was closed behind the program's back: closing the
    page raises. *)
Definition page_gone_engine (T : Type) (h : list Call) (op : Op T) : Exn + T :=
  match op in Op T return Exn + T with
  | PageClose _ => inl target_closed
  | op' => blank_engine _ h op'
  end.

Definition page_gone_world : World :=
  {| tempdir := "/tmp"; work_dir := "/srv/app";
     clock := fun _ => sample_now; engine := page_gone_engine |}.

(** Closing the context raises. *)
Definition context_gone_engine (T : Type) (h : list Call) (op : Op T) : Exn + T :=
  match op in Op T return Exn + T with
  | ContextClose _ => inl target_closed
  | op' => blank_engine _ h op'
  end.

Definition context_gone_world : World :=
  {| tempdir := "/tmp"; work_dir := "/srv/app";
     clock := fun _ => sample_now; engine := context_gone_engine |}.

(** The page never finishes loading the previous entry: going back times
    out. *)
Definition stalled_engine (T : Type) (h : list Call) (op : Op T) : Exn + T :=
  match op in Op T return Exn + T with
  | GoBack _ =>
      inl (mkExn TimeoutError "Page.go_back: Timeout 30000ms exceeded.")
  | op' => blank_engine _ h op'
  end.

Definition stalled_world : World :=
  {| tempdir := "/tmp"; work_dir := "/srv/app";
     clock := fun _ => sample_now; engine := stalled_engine |}.

(** A session built by an earlier call: all four handles are present. *)
Definition live_manager (hl : bool) : PlaywrightManager :=
  {| browser_type := "chromium"; headless := hl;
     viewport_width := 1200; viewport_height := 900;
     playwright := Some 1%nat; browser := Some 2%nat;
     context := Some 3%nat; page := Some 4%nat |}.

Definition live_state (hl : bool) : State :=
  {| mgr := live_manager hl; trace := []; logs := [] |}.

(** ** The singleton constructor *)

(** The class attribute [_instance]: nothing yet, an object that
    [__new__] has made and [__init__] has not filled ([initialized] is
    [False]), or the initialised manager. *)
Inductive Instance : Type :=
| NotCreated
| Uninitialized
| Initialized (m : PlaywrightManager).

(** [PlaywrightManager.__new__] *)
Definition manager_new (i : Instance) : Instance :=
  match i with
  | NotCreated => Uninitialized
  | _ => i
  end.

(** [PlaywrightManager.__init__], on the object [__new__] returned. *)
Definition manager_init (bt : string) (hl : bool) (viewer_port : Z * Z)
    (i : Instance) : Instance :=
  match i with
  | Uninitialized => Initialized (init_manager bt hl viewer_port)
  | _ => i
  end.

(** The call [PlaywrightManager(browser_type, headless, viewer_port)]. *)
Definition construct (args : string * bool * (Z * Z)) (i : Instance) : Instance :=
  let '(bt, hl, viewer_port) := args in
  manager_init bt hl viewer_port (manager_new i).

(** ** More observations *)

Definition is_set (o : option Handle) : bool :=
  match o with Some _ => true | None => false end.

(** The references form a chain: a page is held only with its context, a
    context only with its browser, a browser only with playwright. *)
Definition session_chain (m : PlaywrightManager) : bool :=
  implb (is_set (page m)) (is_set (context m))
  && implb (is_set (context m)) (is_set (browser m))
  && implb (is_set (browser m)) (is_set (playwright m)).

Definition is_start (c : Call) : bool :=
  match c with MkCall PwStart => true | MkCall _ => false end.

Definition is_launch (c : Call) : bool :=
  match c with MkCall (Launch _ _ _) => true | MkCall _ => false end.

Definition is_new_context (c : Call) : bool :=
  match c with MkCall (NewContext _ _) => true | MkCall _ => false end.

Definition is_new_page (c : Call) : bool :=
  match c with MkCall (NewPage _) => true | MkCall _ => false end.

(** The process a [terminate()] call is sent to. *)
Definition terminated_pid (c : Call) : option Z :=
  match c with
  | MkCall (Terminate pid) => Some pid
  | MkCall _ => None
  end.

Definition is_process_call (c : Call) : bool :=
  match c with
  | MkCall ProcessIter => true
  | MkCall (Terminate _) => true
  | MkCall _ => false
  end.

(** The tools that look an element up and act on the handle they get:
    the argument they validate and the selector they query. *)
Definition lookup_argument (t : Tool) : option PyVal :=
  match t with
  | Browser_Scroll_To_Element v | Get_Element_HTML v | Get_Element_Text v
  | Clear_Field v | Save_Element_As_HTML v _ => Some v
  | _ => None
  end.

Definition lookup_selector (t : Tool) : option PyVal :=
  match t with
  | Browser_Scroll_To_Element selector => Some selector
  | Get_Element_HTML xpath | Get_Element_Text xpath | Clear_Field xpath
  | Save_Element_As_HTML xpath _ => Some (PyStr ("xpath=" ++ py_str xpath))
  | _ => None
  end.

Definition not_found_message (t : Tool) : string :=
  match t with
  | Browser_Scroll_To_Element selector =>
      "Error: No element found with selector: " ++ py_str selector
  | Clear_Field xpath =>
      "Error: No input field found with XPath: " ++ py_str xpath
  | Get_Element_HTML xpath | Get_Element_Text xpath
  | Save_Element_As_HTML xpath _ =>
      "Error: No element found with XPath: " ++ py_str xpath
  | _ => ""
  end.

(** The tools without any [try] block, and the one engine call after which
    each of them returns. *)
Definition unguarded (t : Tool) : bool :=
  match t with
  | Browser_Go_Back | Browser_Reload | Get_Current_URL | Get_Page_Content
  | Get_Page_HTML | Get_Page_Title | Clear_Browser_Data => true
  | _ => false
  end.

(** A process table with two Playwright browsers among other processes. *)
Definition sample_processes : list Process :=
  [ mkProcess 10 (Some "bash") (Some "/usr/bin/bash");
    mkProcess 11 (Some "Chrome")
      (Some "/home/me/.cache/ms-playwright/chromium-1091/chrome-linux/chrome");
    mkProcess 12 (Some "chrome") (Some "/opt/google/chrome/chrome");
    mkProcess 13 None None;
    mkProcess 14 (Some "chrome_crashpad")
      (Some "/home/me/.cache/ms-Playwright/chromium-1091/chrome_crashpad") ].

(** Process 11 has already exited when it is terminated. *)
Definition process_engine (T : Type) (h : list Call) (op : Op T) : Exn + T :=
  match op in Op T return Exn + T with
  | ProcessIter => inr sample_processes
  | Terminate pid =>
      if pid =? 11
      then inl (mkExn NoSuchProcess "process no longer exists (pid=11)")
      else inr tt
  | op' => blank_engine _ h op'
  end.

Definition process_world : World :=
  {| tempdir := "/tmp"; work_dir := "/srv/app";
     clock := fun _ => sample_now; engine := process_engine |}.

(** The browser cannot be launched (its executable is missing). *)
Definition no_browser_engine (T : Type) (h : list Call) (op : Op T) : Exn + T :=
  match op in Op T return Exn + T with
  | Launch _ _ _ =>
      inl (mkExn PlaywrightError "BrowserType.launch: Executable doesn't exist")
  | op' => blank_engine _ h op'
  end.

Definition no_browser_world : World :=
  {| tempdir := "/tmp"; work_dir := "/srv/app";
     clock := fun _ => sample_now; engine := no_browser_engine |}.

(** Pages with content: every selector matches element 7. *)
Definition rich_engine (T : Type) (h : list Call) (op : Op T) : Exn + T :=
  match op in Op T return Exn + T with
  | QuerySelector _ _ => inr (Some 7%nat)
  | QuerySelectorAll _ _ => inr [7%nat; 8%nat; 9%nat]
  | ElemEvaluate _ _ => inr (PyStr "<div class='x'>hello</div>")
  | op' => blank_engine _ h op'
  end.

Definition rich_world : World :=
  {| tempdir := "/tmp"; work_dir := "/srv/app";
     clock := fun _ => sample_now; engine := rich_engine |}.

(** What a teardown that failed at the browser leaves: playwright and the
    browser are still held, context and page are gone. *)
Definition browser_only_state : State :=
  {| mgr := {| browser_type := "chromium"; headless := false;
               viewport_width := 1200; viewport_height := 900;
               playwright := Some 1%nat; browser := Some 2%nat;
               context := None; page := None |};
     trace := []; logs := [] |}.

(** The body of the loop of [kill_all_chrome_instances], for one process. *)
Definition terminate_if_playwright_chrome (process : Process) : M unit :=
  try_except_only psutil_gone_or_denied
    (if is_playwright_chrome process then
       log INFO ("Terminating process: "
                 ++ py_str (match proc_name process with
                            | Some n => PyStr n | None => PyNone end)
                 ++ " (PID: " ++ dec (proc_pid process)
                 ++ ", Path: "
                 ++ py_str (match proc_exe process with
                            | Some x => PyStr x | None => PyNone end)
                 ++ ")") ;;
       call (Terminate (proc_pid process))
     else ret tt)
    (fun e => log WARNING ("Could not terminate process: " ++ exn_str e)).

Definition is_session_call (c : Call) : bool :=
  is_construction c || is_teardown c.

Definition is_pdf_tool (t : Tool) : bool :=
  match t with Browser_Save_As_PDF _ _ => true | _ => false end.

Definition is_close_tool (t : Tool) : bool :=
  match t with Browser_Close => true | _ => false end.

Definition is_kill_tool (t : Tool) : bool :=
  match t with Kill_All_Chrome_Instances => true | _ => false end.

(** The path a Save tool was given, when it is a non-empty string. *)
Definition explicit_path (t : Tool) : option string :=
  match t with
  | Save_Element_As_HTML _ (PyStr p) | Save_Page_As_HTML (PyStr p)
  | Save_Page_Screenshot (PyStr p) =>
      if str_empty p then None else Some p
  | _ => None
  end.

(** ** Reasoning about runs *)

Ltac unfold_monad :=
  cbv [bind ret raise try_then try_except try_except_only call log self update
       set_browser_type set_headless set_playwright set_browser set_context
       set_page deref if_not if_set timestamp_now get_tempdir get_work_dir
       returning_str] in *.

Ltac split_engine :=
  repeat match goal with
         | |- context [engine ?w ?T ?h ?op] =>
             let E := fresh "Heng" in
             destruct (engine w T h op) eqn:E; simpl
         end.

Ltac grow :=
  repeat first [ apply grown_refl | apply grown_cons; [ | ] ].

Lemma grown_by_app (P : Call -> Prop) (t t' : list Call) :
  grown_by P t t' <-> exists added, t' = (added ++ t)%list /\ Forall P added.
Proof.
  split.
  - induction 1 as [| c t' Hc _ (added & -> & Hall)].
    + exists []. split; [reflexivity | constructor].
    + exists (c :: added). split; [reflexivity | constructor; assumption].
  - intros (added & -> & Hall). induction Hall; simpl.
    + apply grown_refl.
    + apply grown_cons; assumption.
Qed.

Lemma grown_by_trans (P : Call -> Prop) (t1 t2 t3 : list Call) :
  grown_by P t1 t2 -> grown_by P t2 t3 -> grown_by P t1 t3.
Proof.
  intros H12 H23. induction H23.
  - assumption.
  - apply grown_cons; assumption.
Qed.

Lemma grown_by_weaken (P Q : Call -> Prop) (t t' : list Call) :
  (forall c, P c -> Q c) -> grown_by P t t' -> grown_by Q t t'.
Proof.
  intros HPQ H. induction H.
  - apply grown_refl.
  - apply grown_cons; auto.
Qed.

(** *** ensure_browser *)

Lemma ensure_browser_ready (w : World) (s : State) (pw b c p : Handle) :
  playwright (mgr s) = Some pw -> browser (mgr s) = Some b ->
  context (mgr s) = Some c -> page (mgr s) = Some p ->
  ensure_browser w s = (inr p, s).
Proof.
  destruct s as [m t l]; destruct m; simpl; intros; subst.
  reflexivity.
Qed.

Lemma ensure_browser_ok (w : World) (s s1 : State) (p : Handle) :
  ensure_browser w s = (inr p, s1) ->
  session_full (mgr s1) /\ page (mgr s1) = Some p.
Proof.
  destruct s as [m t l]; destruct m as [bt hl vw vh opw ob oc op].
  unfold ensure_browser. unfold_monad. simpl.
  destruct opw, ob, oc, op; simpl; split_engine; intros H;
    try discriminate H.
  all: injection H as <- <-; simpl; unfold session_full; simpl.
  all: split; [do 4 eexists; repeat split | reflexivity].
Qed.

(** Whatever its outcome, [ensure_browser] keeps the configuration and
    only issues construction calls. *)
Lemma ensure_browser_frame (w : World) (s s1 : State) (r : Exn + Handle) :
  ensure_browser w s = (r, s1) ->
  same_config (mgr s) (mgr s1)
  /\ grown_by (fun c => is_construction c = true) (trace s) (trace s1).
Proof.
  destruct s as [m t l]; destruct m as [bt hl vw vh opw ob oc op].
  unfold ensure_browser. unfold_monad. simpl.
  destruct opw, ob, oc, op; simpl; split_engine; intros H.
  all: injection H as <- <-; simpl; unfold same_config; simpl.
  all: split; [repeat split | grow; reflexivity].
Qed.

(** *** close *)

Lemma close_outcome (w : World) (s : State) :
  match close w s with
  | (inr _, s') =>
      session_empty (mgr s') /\ same_config (mgr s) (mgr s')
      /\ trace s' = (rev (teardown_calls (mgr s)) ++ trace s)%list
      /\ logs s' = (INFO, "Closing browser resources") :: logs s
  | (inl e, s') =>
      ~ session_empty (mgr s') /\ same_config (mgr s) (mgr s')
      /\ logs s' = (INFO, "Closing browser resources") :: logs s
      /\ exists (op : Op unit) (t : list Call),
           trace s' = MkCall op :: t
           /\ is_teardown (MkCall op) = true
           /\ engine w unit t op = inl e
  end.
Proof.
  destruct s as [m t l]; destruct m as [bt hl vw vh opw ob oc op].
  unfold close. unfold_monad. simpl.
  destruct opw, ob, oc, op; simpl; split_engine;
    unfold session_empty, same_config, teardown_calls; simpl.
  all: try (repeat split; reflexivity).
  all: split; [intros (? & ? & ? & ?); discriminate | ].
  all: split; [repeat split | ].
  all: split; [reflexivity | ].
  all: do 2 eexists; split; [reflexivity | split; [reflexivity | eassumption]].
Qed.

Lemma close_on_empty (w : World) (s : State) :
  session_empty (mgr s) ->
  close w s =
  (inr tt, {| mgr := mgr s; trace := trace s;
              logs := (INFO, "Closing browser resources") :: logs s |}).
Proof.
  destruct s as [m t l]; destruct m as [bt hl vw vh opw ob oc op].
  unfold session_empty; simpl. intros (-> & -> & -> & ->). reflexivity.
Qed.

(** *** Acquiring repeatedly *)

Lemma acquire_n_ready (w : World) (s : State) (p : Handle) (n : nat) :
  session_full (mgr s) -> page (mgr s) = Some p ->
  acquire_n n w s = (inr (repeat p n), s).
Proof.
  intros (pw & b & c & p' & Hpw & Hb & Hc & Hp') Hp.
  assert (Hrun : ensure_browser w s = (inr p, s)).
  { rewrite Hp in Hp'. injection Hp' as <-.
    eapply ensure_browser_ready; eassumption. }
  induction n as [| k IH]; simpl.
  - reflexivity.
  - unfold bind at 1. rewrite Hrun. unfold bind at 1. rewrite IH. reflexivity.
Qed.

(** C4. Once a first [ensure_browser] has returned page [p], any number
    [n >= 1] of successive calls returns [p] every time and ends in the
    state the first call left: the same playwright, browser, context and
    page handles, and a history with no further construction call. *)
Theorem ensure_browser_idempotent
    (w : World) (s s1 : State) (p : Handle) (n : nat) :
  (1 <= n)%nat ->
  ensure_browser w s = (inr p, s1) ->
  acquire_n n w s = (inr (repeat p n), s1)
  /\ session_full (mgr s1) /\ page (mgr s1) = Some p
  /\ grown_by (fun c => is_construction c = true) (trace s) (trace s1)
  /\ forall k : nat, acquire_n k w s1 = (inr (repeat p k), s1).
Proof.
  intros Hn Hrun.
  destruct (ensure_browser_ok _ _ _ _ Hrun) as [Hfull Hp].
  destruct (ensure_browser_frame _ _ _ _ Hrun) as [_ Hgrow].
  destruct n as [| k]; [lia |].
  repeat split; try assumption.
  - simpl. unfold bind at 1. rewrite Hrun. unfold bind at 1.
    rewrite (acquire_n_ready w s1 p k Hfull Hp). reflexivity.
  - intros k'. apply acquire_n_ready; assumption.
Qed.

Lemma ensure_browser_idempotent_witness :
  acquire_n 3 blank_world state0
  = (inr [4%nat; 4%nat; 4%nat], snd (ensure_browser blank_world state0)).
Proof.
  refine (proj1 (ensure_browser_idempotent blank_world state0
                   (snd (ensure_browser blank_world state0)) 4%nat 3 _ _)).
  - lia.
  - vm_compute. reflexivity.
Defined.

(** *** The reconfiguration step of the PDF tool *)

(** C3. When the manager is already chromium and headless, the
    reconfiguration step is [ensure_browser] itself: it issues no close or
    stop call, and on a complete session it returns the existing page and
    leaves playwright, browser, context and page as they were. *)
Theorem pdf_reconfigure_keeps_satisfying_session (w : World) (s : State) :
  browser_type (mgr s) = "chromium" ->
  headless (mgr s) = true ->
  pdf_reconfigure w s = ensure_browser w s
  /\ grown_by (fun c => is_teardown c = false)
       (trace s) (trace (snd (pdf_reconfigure w s)))
  /\ forall pw b c p,
       playwright (mgr s) = Some pw -> browser (mgr s) = Some b ->
       context (mgr s) = Some c -> page (mgr s) = Some p ->
       pdf_reconfigure w s = (inr p, s).
Proof.
  intros Hbt Hhl.
  assert (Heq : pdf_reconfigure w s = ensure_browser w s).
  { unfold pdf_reconfigure. unfold bind at 1, self. simpl.
    rewrite Hbt, Hhl. simpl. reflexivity. }
  split; [exact Heq |]. split.
  - rewrite Heq. destruct (ensure_browser w s) as [r s1] eqn:Hrun.
    apply ensure_browser_frame in Hrun. destruct Hrun as [_ Hgrow].
    simpl. eapply grown_by_weaken; [| exact Hgrow].
    intros [T op] Hc. destruct op; simpl in *; congruence.
  - intros pw b c p Hpw Hb Hc Hp. rewrite Heq.
    eapply ensure_browser_ready; eassumption.
Qed.

Lemma pdf_reconfigure_keeps_satisfying_session_witness :
  pdf_reconfigure blank_world (live_state true)
  = (inr 4%nat, live_state true).
Proof.
  refine (proj2 (proj2 (pdf_reconfigure_keeps_satisfying_session
                          blank_world (live_state true) _ _))
            1%nat 2%nat 3%nat 4%nat _ _ _ _); vm_compute; reflexivity.
Defined.

(** What the reconfiguration step does when its guard holds and it
    returns: one complete teardown, then one construction from scratch,
    launched with [headless=False]. *)
Lemma pdf_reconfigure_rebuild (w : World) (s s1 : State) (p : Handle) :
  browser_type (mgr s) <> "chromium" \/ headless (mgr s) = false ->
  pdf_reconfigure w s = (inr p, s1) ->
  browser_type (mgr s1) = "chromium" /\ headless (mgr s1) = false
  /\ exists pw b c,
       trace s1
       = ([MkCall (NewPage c);
           MkCall (NewContext b
                     (Some (viewport_width (mgr s), viewport_height (mgr s))));
           MkCall (Launch pw "chromium" false);
           MkCall PwStart]
          ++ rev (teardown_calls (mgr s)) ++ trace s)%list.
Proof.
  intros Hguard.
  assert (Hg : negb (String.eqb (browser_type (mgr s)) "chromium")
               || negb (headless (mgr s)) = true).
  { destruct Hguard as [Hbt | Hhl].
    - apply String.eqb_neq in Hbt. rewrite Hbt. reflexivity.
    - rewrite Hhl. apply orb_true_r. }
  unfold pdf_reconfigure. unfold bind at 1, self. simpl. rewrite Hg.
  unfold bind at 1. unfold bind at 1.
  pose proof (close_outcome w s) as Hclose.
  destruct (close w s) as [[e | []] s0]; [discriminate |].
  destruct Hclose as ((Hp & Hc & Hb & Hpw) & (Hbt & Hhl & Hvw & Hvh) & Htr & _).
  destruct s0 as [m0 t0 l0]; destruct m0 as [bt hl vw vh opw ob oc op].
  simpl in *. subst.
  unfold ensure_browser. unfold_monad. simpl. split_engine; intros H;
    try discriminate H.
  injection H as <- <-. simpl.
  repeat split. do 3 eexists. reflexivity.
Qed.

(** C1 (the code's behaviour). Whenever the PDF tool returns after its
    guard held, the rebuilt session is chromium and still headed: the
    manager's [headless] flag is [false] and the browser was launched with
    [headless=False]. *)
Theorem browser_save_as_pdf_rebuilds_headed
    (w : World) (s s' : State) (landscape format : PyVal) (r : string) :
  browser_type (mgr s) <> "chromium" \/ headless (mgr s) = false ->
  browser_save_as_pdf landscape format w s = (inr r, s') ->
  headless (mgr s') = false /\ browser_type (mgr s') = "chromium"
  /\ exists pw, In (MkCall (Launch pw "chromium" false)) (trace s').
Proof.
  intros Hguard. unfold browser_save_as_pdf. unfold bind at 1.
  destruct (pdf_reconfigure w s) as [[e | p] s1] eqn:Hrec; [discriminate |].
  destruct (pdf_reconfigure_rebuild _ _ _ _ Hguard Hrec)
    as (Hbt & Hhl & pw & b & c & Htr).
  destruct s1 as [m1 t1 l1]. simpl in *. subst t1.
  unfold_monad. simpl. split_engine; intros H; try discriminate H.
  all: injection H as <- <-; simpl.
  all: repeat split; try assumption.
  all: exists pw; simpl; tauto.
Qed.

Lemma browser_save_as_pdf_rebuilds_headed_witness :
  headless (mgr (snd (browser_save_as_pdf (PyBool true) PyNone
                        blank_world (live_state false)))) = false.
Proof.
  refine (proj1 (browser_save_as_pdf_rebuilds_headed blank_world
                   (live_state false)
                   (snd (browser_save_as_pdf (PyBool true) PyNone
                           blank_world (live_state false)))
                   (PyBool true) PyNone
                   "PDF saved to /tmp/page_20240102_030405.pdf" _ _)).
  - right. reflexivity.
  - vm_compute. reflexivity.
Defined.

(** *** Closing *)

(** C5 (as the code has it). On an empty session the Close tool returns
    its confirmation without any engine call and leaves the session
    empty.  On any session, if a first Close returns, it returned the
    confirmation and left the session empty, and a second Close right
    after it returns the confirmation again, issues no engine call and
    leaves the session empty. *)
Theorem browser_close_idempotent (w : World) (s : State) :
  (session_empty (mgr s) ->
   exists s1,
     browser_close w s = (inr "Browser closed", s1)
     /\ trace s1 = trace s /\ mgr s1 = mgr s)
  /\ (forall r s1,
        browser_close w s = (inr r, s1) ->
        r = "Browser closed" /\ session_empty (mgr s1)
        /\ exists s2,
             browser_close w s1 = (inr "Browser closed", s2)
             /\ trace s2 = trace s1 /\ session_empty (mgr s2)).
Proof.
  split.
  - intros Hempty. unfold browser_close. unfold bind at 1.
    rewrite (close_on_empty w s Hempty). eexists. split; [reflexivity |].
    split; reflexivity.
  - intros r s1. unfold browser_close. unfold bind at 1.
    pose proof (close_outcome w s) as Hclose.
    destruct (close w s) as [[e | []] s0]; [discriminate |].
    destruct Hclose as (Hempty & _).
    unfold ret. intros H. injection H as <- <-.
    split; [reflexivity |]. split; [assumption |].
    unfold bind at 1. rewrite (close_on_empty w s0 Hempty).
    eexists. split; [reflexivity |]. split; [reflexivity | assumption].
Qed.

Lemma browser_close_idempotent_witness :
  exists s2,
    browser_close blank_world (snd (browser_close blank_world (live_state false)))
    = (inr "Browser closed", s2)
    /\ trace s2 = trace (snd (browser_close blank_world (live_state false)))
    /\ session_empty (mgr s2).
Proof.
  refine (proj2 (proj2 (proj2 (browser_close_idempotent blank_world
                                 (live_state false))
                          "Browser closed" _ _))).
  vm_compute. reflexivity.
Defined.

(** C5 fails as stated: with a page whose close raises, the first Close
    raises instead of confirming, and the second Close calls the engine
    again. *)
Lemma browser_close_twice_counterexample :
  browser_close page_gone_world (live_state false)
  = (inl target_closed,
     {| mgr := live_manager false;
        trace := [MkCall (PageClose 4%nat)];
        logs := [(INFO, "Closing browser resources")] |})
  /\ trace (snd (browser_close page_gone_world
                   (snd (browser_close page_gone_world (live_state false)))))
     = [MkCall (PageClose 4%nat); MkCall (PageClose 4%nat)].
Proof.
  split; vm_compute; reflexivity.
Qed.



(** *** Exceptions at the dispatch boundary *)

Lemma not_nonempty_str_spec (v : PyVal) :
  not_nonempty_str v = true <-> ~ nonempty_string v.
Proof.
  unfold not_nonempty_str, nonempty_string. split.
  - intros H (s & -> & Hs). destruct s; [congruence | discriminate H].
  - intros H. destruct v as [| b | z | s]; simpl;
      try reflexivity; try apply orb_true_r.
    destruct s; [reflexivity |]. exfalso. apply H. eexists. split;
      [reflexivity | discriminate].
Qed.

Ltac unfold_tools :=
  unfold browser_navigate, browser_close, browser_fill, browser_find_by_xpath,
    browser_go_back, browser_reload, browser_click, browser_save_as_pdf,
    browser_screenshot, browser_scroll_to_top, browser_scroll_to_bottom,
    browser_scroll_to_element, get_current_url, get_element_html,
    get_element_text, get_page_content, get_page_html, get_page_title,
    save_element_as_html, save_page_as_html, save_page_screenshot,
    clear_field, browser_press_key, browser_scroll_one_step,
    clear_browser_data, get_cookies, os_path_join1.

Ltac run_tool_cases :=
  unfold_monad;
  repeat match goal with
         | |- context [if ?b then _ else _] =>
             lazymatch b with
             | context [engine] => fail
             | _ => destruct b eqn:?
             end
         end;
  simpl;
  repeat match goal with
         | |- context [ensure_browser ?w ?s] =>
             let H := fresh "Hacq" in
             destruct (ensure_browser w s) as [[? | ?] ?] eqn:H
         | |- context [pdf_reconfigure ?w ?s] =>
             let H := fresh "Hacq" in
             destruct (pdf_reconfigure w s) as [[? | ?] ?] eqn:H
         end;
  simpl; split_engine;
  repeat match goal with
         | |- context [match ?x with Some _ => _ | None => _ end] =>
             destruct x; simpl; split_engine
         | |- context [if ?b then _ else _] => destruct b eqn:?; simpl; split_engine
         end.

Lemma kill_all_chrome_instances_returns (w : World) (s : State) :
  exists r s', kill_all_chrome_instances w s = (inr r, s').
Proof.
  unfold kill_all_chrome_instances. unfold_monad. simpl.
  destruct (engine w _ (trace s) ProcessIter) as [e | procs]; simpl.
  - do 2 eexists. reflexivity.
  - match goal with
    | |- context [for_each procs ?body w ?s0] =>
        destruct (for_each procs body w s0) as [[e | []] s1]
    end; do 2 eexists; reflexivity.
Qed.

(** C2 (as the code has it). A tool whose page calls sit in a [try] block
    with a returning handler gives its caller a string, unless the
    acquisition of the page itself raised: then that exception, and no
    other, reaches the caller. *)
Theorem guarded_tools_raise_only_from_acquisition
    (w : World) (s : State) (t : Tool) :
  catches_page_errors t = true ->
  match run_tool t w s with
  | (inr v, _) => exists text, v = PyStr text
  | (inl e, s') =>
      t <> Kill_All_Chrome_Instances /\ acquisition t w s = (inl e, s')
  end.
Proof.
  destruct t; simpl; intros Hcatch; try discriminate Hcatch.
  2: { destruct (kill_all_chrome_instances_returns w s) as (r & s' & Hrun).
       unfold returning_str, bind. rewrite Hrun. eexists. reflexivity. }
  all: try match goal with
           | fp : PyVal |- context [save_page_screenshot ?fp] =>
               destruct fp as [| [|] | z | path]; simpl in Hcatch;
               try discriminate Hcatch
           end.
  all: unfold_tools.
  all: run_tool_cases.
  all: try (eexists; reflexivity).
  all: try (split; [discriminate | reflexivity]).
  all: simpl in *; try discriminate.
  all: match goal with
       | H : ?b = false, H' : context [?b] |- _ =>
           rewrite H in H'; discriminate H'
       end.
Qed.

(** C2 fails as stated: Go-Back has no handler, so an engine time-out
    reaches the caller as an exception. *)
Lemma go_back_exception_counterexample :
  run_tool Browser_Go_Back stalled_world (live_state false)
  = (inl (mkExn TimeoutError "Page.go_back: Timeout 30000ms exceeded."),
     {| mgr := live_manager false;
        trace := [MkCall (GoBack 4%nat)];
        logs := [(INFO, "Navigating back")] |}).
Proof.
  vm_compute. reflexivity.
Qed.

Lemma guarded_tools_raise_only_from_acquisition_witness :
  match run_tool (Browser_Click (PyStr "#missing")) blank_world state0 with
  | (inr v, _) => exists text, v = PyStr text
  | (inl e, s') =>
      Browser_Click (PyStr "#missing") <> Kill_All_Chrome_Instances
      /\ acquisition (Browser_Click (PyStr "#missing")) blank_world state0
         = (inl e, s')
  end.
Proof.
  apply guarded_tools_raise_only_from_acquisition. reflexivity.
Defined.

(** *** Validation before acquisition *)

(** C8 (as the code has it). A tool that validates an argument, called
    with a malformed value of it, returns an error message at once: no
    engine call is made, nothing is logged and the manager is untouched. *)
Theorem malformed_argument_fails_before_acquisition
    (w : World) (s : State) (t : Tool) :
  malformed t ->
  exists msg,
    run_tool t w s = (inr (PyStr msg), s)
    /\ String.prefix "Error: " msg = true.
Proof.
  destruct t; simpl; intros Hbad; try contradiction.
  all: unfold_tools; unfold returning_str, bind.
  all: try (apply not_nonempty_str_spec in Hbad; rewrite Hbad;
            eexists; split; reflexivity).
  - destruct (not_nonempty_str selector) eqn:Hsel.
    + eexists; split; reflexivity.
    + destruct Hbad as [Hbad | Hbad].
      * apply not_nonempty_str_spec in Hbad. congruence.
      * destruct text as [| b | z | str]; simpl;
          try (eexists; split; reflexivity).
        exfalso. apply (Hbad str). reflexivity.
  - destruct Hbad as [Hint Hbool].
    destruct step as [| b | z | str]; simpl;
      try (eexists; split; reflexivity).
    + exfalso. apply (Hbool b). reflexivity.
    + exfalso. apply (Hint z). reflexivity.
Qed.

Lemma malformed_argument_fails_before_acquisition_witness :
  exists msg,
    run_tool (Browser_Click (PyStr "")) blank_world state0
    = (inr (PyStr msg), state0)
    /\ String.prefix "Error: " msg = true.
Proof.
  apply malformed_argument_fails_before_acquisition.
  simpl. intros (str & Heq & Hne). injection Heq as <-. apply Hne. reflexivity.
Defined.

(** C8 fails as stated: Screenshot does not validate its selector, so a
    selector of the wrong type builds the whole session before the call
    fails. *)
Lemma screenshot_unvalidated_selector_counterexample :
  run_tool (Browser_Screenshot (PyInt 123) PyNone) blank_world state0
  = (inr (PyStr "Error: Could not find element with selector '123'"),
     {| mgr := {| browser_type := "chromium"; headless := false;
                  viewport_width := 1200; viewport_height := 900;
                  playwright := Some 1%nat; browser := Some 2%nat;
                  context := Some 3%nat; page := Some 4%nat |};
        trace := [MkCall (QuerySelector 4%nat (PyInt 123));
                  MkCall (NewPage 3%nat);
                  MkCall (NewContext 2%nat (Some (1200, 900)));
                  MkCall (Launch 1%nat "chromium" false);
                  MkCall PwStart];
        logs := [(INFO, "Taking screenshot of element: 123");
                 (INFO, "Taking screenshot");
                 (INFO, "Browser context created with custom viewport");
                 (INFO, "Launching chromium browser");
                 (INFO, "Starting Playwright")] |}).
Proof.
  vm_compute. reflexivity.
Qed.

(** *** Looking an element up before acting on it *)

Lemma nonempty_string_valid (v : PyVal) :
  nonempty_string v -> not_nonempty_str v = false.
Proof.
  intros H. destruct (not_nonempty_str v) eqn:E; [| reflexivity].
  apply not_nonempty_str_spec in E. contradiction.
Qed.

(** C7 (as the code has it). After the page [p] has been acquired:
    Screenshot with a selector that matches nothing asks the engine for
    the element, returns its own not-found message and takes no
    screenshot; Click and Fill ask no such question, their one engine
    call is the click or fill itself, and an engine error comes back
    wrapped in their message. *)
Theorem element_lookup_before_effect
    (w : World) (s s1 : State) (p : Handle) (selector : PyVal) :
  ensure_browser w s = (inr p, s1) ->
  (truthy selector = true ->
   engine w _ (trace s1) (QuerySelector p selector) = inr None ->
   forall file_path, exists s2,
     browser_screenshot selector file_path w s
     = (inr ("Error: Could not find element with selector '"
             ++ py_str selector ++ "'"), s2)
     /\ trace s2 = MkCall (QuerySelector p selector) :: trace s1
     /\ mgr s2 = mgr s1)
  /\ (nonempty_string selector ->
      exists r s2,
        browser_click selector w s = (inr r, s2)
        /\ trace s2 = MkCall (Click p (py_str selector) 5000) :: trace s1
        /\ forall e,
             engine w _ (trace s1) (Click p (py_str selector) 5000) = inl e ->
             r = "Could not click element: " ++ exn_str e)
  /\ (nonempty_string selector ->
      forall text, exists r s2,
        browser_fill selector (PyStr text) w s = (inr r, s2)
        /\ trace s2 = MkCall (Fill p (py_str selector) text) :: trace s1
        /\ forall e,
             engine w _ (trace s1) (Fill p (py_str selector) text) = inl e ->
             r = "Could not fill element: " ++ exn_str e).
Proof.
  intros Hacq. split; [| split].
  - intros Htruthy Hnone file_path.
    unfold browser_screenshot. unfold_monad. rewrite Hacq. simpl.
    rewrite Htruthy. simpl. rewrite Hnone.
    eexists. split; [reflexivity |]. split; reflexivity.
  - intros Hvalid. apply nonempty_string_valid in Hvalid.
    unfold browser_click. rewrite Hvalid. unfold_monad. rewrite Hacq. simpl.
    destruct (engine w unit (trace s1) (Click p (py_str selector) 5000))
      as [e | []] eqn:Hclick; simpl.
    + do 2 eexists. split; [reflexivity |]. split; [reflexivity |].
      intros e' He'. injection He' as <-. reflexivity.
    + do 2 eexists. split; [reflexivity |]. split; [reflexivity |].
      intros e' He'. discriminate He'.
  - intros Hvalid text. apply nonempty_string_valid in Hvalid.
    unfold browser_fill. rewrite Hvalid.
    change (negb (isinstance_str (PyStr text))) with false.
    change (py_str (PyStr text)) with text.
    unfold_monad. rewrite Hacq. simpl.
    destruct (engine w unit (trace s1) (Fill p (py_str selector) text))
      as [e | []] eqn:Hfill; simpl.
    + do 2 eexists. split; [reflexivity |]. split; [reflexivity |].
      intros e' He'. injection He' as <-. reflexivity.
    + do 2 eexists. split; [reflexivity |]. split; [reflexivity |].
      intros e' He'. discriminate He'.
Qed.

Lemma element_lookup_before_effect_witness :
  exists r s2,
    browser_click (PyStr "#missing") blank_world state0 = (inr r, s2)
    /\ trace s2
       = MkCall (Click 4%nat (py_str (PyStr "#missing")) 5000)
         :: trace (snd (ensure_browser blank_world state0))
    /\ forall e,
         engine blank_world _ (trace (snd (ensure_browser blank_world state0)))
           (Click 4%nat (py_str (PyStr "#missing")) 5000) = inl e ->
         r = "Could not click element: " ++ exn_str e.
Proof.
  refine (proj1 (proj2 (element_lookup_before_effect blank_world state0
                          (snd (ensure_browser blank_world state0)) 4%nat
                          (PyStr "#missing") _)) _).
  - vm_compute. reflexivity.
  - exists "#missing". split; [reflexivity | discriminate].
Defined.

(** C7 fails as stated: on a page where nothing matches, Click makes no
    query; it calls the engine's click and reports the engine's time-out. *)
Lemma click_without_lookup_counterexample :
  browser_click (PyStr "#missing") blank_world (live_state false)
  = (inr "Could not click element: Page.click: Timeout 5000ms exceeded waiting for #missing",
     {| mgr := live_manager false;
        trace := [MkCall (Click 4%nat "#missing" 5000)];
        logs := [(ERROR, "Could not click element: Page.click: Timeout 5000ms exceeded waiting for #missing");
                 (INFO, "Clicking element with selector: #missing")] |})
  /\ engine blank_world _ [] (QuerySelector 4%nat (PyStr "#missing")) = inr None.
Proof.
  split; vm_compute; reflexivity.
Qed.

(** *** Default output paths *)


Lemma construction_writes_nothing (c : Call) :
  is_construction c = true -> written_path c = None.
Proof.
  destruct c as [T op]. destruct op; simpl; intros H;
    first [reflexivity | discriminate H].
Qed.


Lemma ensure_browser_writes_nothing (w : World) (s s1 : State) r :
  ensure_browser w s = (r, s1) ->
  grown_by (fun c => written_path c = None) (trace s) (trace s1).
Proof.
  intros H. apply ensure_browser_frame in H. destruct H as [_ H].
  eapply grown_by_weaken; [| exact H]. apply construction_writes_nothing.
Qed.







(** The default names carry the time stamp between a fixed stem and the
    extension, and joining such a name to a directory keeps it below that
    directory. *)
Lemma os_path_join_relative (dir name : string) :
  String.prefix "/" name = false ->
  os_path_join dir name = dir ++ name
  \/ os_path_join dir name = dir ++ "/" ++ name.
Proof.
  intros H. unfold os_path_join. rewrite H.
  destruct (str_empty dir || ends_with_slash dir); [left | right]; reflexivity.
Qed.

Lemma default_name_relative (t : Tool) (stamp : string) :
  without_path t -> String.prefix "/" (default_name t stamp) = false.
Proof.
  destruct t; simpl; intros H; try contradiction; reflexivity.
Qed.

(** *** The Screenshot tool and its [file_path] argument *)



(** ** Further properties of the session manager *)

(** *** The singleton *)

(** X1. However many times and with whatever arguments the manager is
    constructed, the instance is the one the first construction
    initialised; a manager that is already initialised, whatever session
    it holds, is returned as it is. *)
Theorem construct_is_singleton
    (first : string * bool * (Z * Z)) (rest : list (string * bool * (Z * Z)))
    (m : PlaywrightManager) :
  fold_left (fun i args => construct args i) (first :: rest) NotCreated
  = Initialized (init_manager (fst (fst first)) (snd (fst first)) (snd first))
  /\ fold_left (fun i args => construct args i) (first :: rest) (Initialized m)
     = Initialized m.
Proof.
  assert (Hkeep : forall l m0,
             fold_left (fun i args => construct args i) l (Initialized m0)
             = Initialized m0).
  { induction l as [| [[bt hl] vp] l IH]; intros m0; simpl.
    - reflexivity.
    - apply IH. }
  split.
  - destruct first as [[bt hl] vp]. simpl. apply Hkeep.
  - apply Hkeep.
Qed.

(** *** What ensure_browser builds and what it leaves alone *)

(** X2. On a session whose references form a chain, [ensure_browser] never
    clears or replaces a handle: whatever its outcome, each reference
    that was set still holds the same handle, and when a page was
    referenced and the call returns, it returns that page. *)
Theorem ensure_browser_keeps_handles (w : World) (s : State) :
  session_chain (mgr s) = true ->
  let r := fst (ensure_browser w s) in
  let m1 := mgr (snd (ensure_browser w s)) in
  (forall h, playwright (mgr s) = Some h -> playwright m1 = Some h)
  /\ (forall h, browser (mgr s) = Some h -> browser m1 = Some h)
  /\ (forall h, context (mgr s) = Some h -> context m1 = Some h)
  /\ (forall h, page (mgr s) = Some h ->
      page m1 = Some h /\ forall q, r = inr q -> q = h).
Proof.
  destruct s as [m t l]; destruct m as [bt hl vw vh opw ob oc op].
  unfold ensure_browser. unfold_monad. simpl.
  destruct opw, ob, oc, op; simpl; intros Hchain; try discriminate Hchain;
    split_engine.
  all: repeat split; intros; try discriminate; try assumption;
    try congruence.
Qed.

Lemma ensure_browser_keeps_handles_witness :
  playwright (mgr (snd (ensure_browser no_browser_world
                          (snd (ensure_browser no_browser_world state0)))))
  = Some 1%nat.
Proof.
  refine (proj1 (ensure_browser_keeps_handles no_browser_world
                   (snd (ensure_browser no_browser_world state0)) _)
            1%nat _).
  - vm_compute. reflexivity.
  - vm_compute. reflexivity.
Defined.

(** X3. On such a session [ensure_browser] performs only the construction
    steps that are missing: with playwright set it never starts the
    engine again, with a browser set it never launches one, with a
    context set it never opens a context, with a page set it never opens
    a page. *)
Theorem ensure_browser_skips_completed_steps (w : World) (s : State) :
  session_chain (mgr s) = true ->
  grown_by
    (fun c =>
       is_construction c = true
       /\ (is_set (playwright (mgr s)) = true -> is_start c = false)
       /\ (is_set (browser (mgr s)) = true -> is_launch c = false)
       /\ (is_set (context (mgr s)) = true -> is_new_context c = false)
       /\ (is_set (page (mgr s)) = true -> is_new_page c = false))
    (trace s) (trace (snd (ensure_browser w s))).
Proof.
  destruct s as [m t l]; destruct m as [bt hl vw vh opw ob oc op].
  unfold ensure_browser. unfold_monad. simpl.
  destruct opw, ob, oc, op; simpl; intros Hchain; try discriminate Hchain;
    split_engine.
  all: grow; repeat split; intros; try reflexivity; try discriminate.
Qed.

Lemma ensure_browser_skips_completed_steps_witness :
  grown_by
    (fun c =>
       is_construction c = true
       /\ (is_set (playwright (mgr (snd (ensure_browser no_browser_world state0))))
           = true -> is_start c = false)
       /\ (is_set (browser (mgr (snd (ensure_browser no_browser_world state0))))
           = true -> is_launch c = false)
       /\ (is_set (context (mgr (snd (ensure_browser no_browser_world state0))))
           = true -> is_new_context c = false)
       /\ (is_set (page (mgr (snd (ensure_browser no_browser_world state0))))
           = true -> is_new_page c = false))
    (trace (snd (ensure_browser no_browser_world state0)))
    (trace (snd (ensure_browser blank_world
                   (snd (ensure_browser no_browser_world state0))))).
Proof.
  apply (ensure_browser_skips_completed_steps blank_world
           (snd (ensure_browser no_browser_world state0))).
  vm_compute. reflexivity.
Defined.



(** X5. When the browser is still held and the context is not, the context
    that [ensure_browser] opens is a default one: the configured viewport
    is only applied to the context opened right after a launch. *)
Theorem ensure_browser_reopens_context_without_viewport
    (w : World) (s s1 : State) (pw b p : Handle) :
  playwright (mgr s) = Some pw -> browser (mgr s) = Some b ->
  context (mgr s) = None -> page (mgr s) = None ->
  ensure_browser w s = (inr p, s1) ->
  exists c,
    (trace s1 = [MkCall (NewPage c); MkCall (NewContext b None)] ++ trace s)%list
    /\ context (mgr s1) = Some c /\ page (mgr s1) = Some p
    /\ browser (mgr s1) = Some b.
Proof.
  destruct s as [m t l]; destruct m as [bt hl vw vh opw ob oc op].
  simpl. intros -> -> -> ->.
  unfold ensure_browser. unfold_monad. simpl. split_engine; intros H;
    try discriminate H.
  injection H as <- <-. simpl. eexists. repeat split.
Qed.

Lemma ensure_browser_reopens_context_without_viewport_witness :
  exists c,
    (trace (snd (ensure_browser blank_world browser_only_state))
     = [MkCall (NewPage c); MkCall (NewContext 2%nat None)]
       ++ trace browser_only_state)%list
    /\ context (mgr (snd (ensure_browser blank_world browser_only_state)))
       = Some c
    /\ page (mgr (snd (ensure_browser blank_world browser_only_state)))
       = Some 2%nat
    /\ browser (mgr (snd (ensure_browser blank_world browser_only_state)))
       = Some 2%nat.
Proof.
  apply (ensure_browser_reopens_context_without_viewport blank_world
           browser_only_state
           (snd (ensure_browser blank_world browser_only_state))
           1%nat 2%nat 2%nat); vm_compute; reflexivity.
Defined.

(** *** Retrying a failed close *)

(** X6. When [close] raises, the calls it made are an initial part of the
    teardown of the session, the last of them being the one that raised;
    what was closed before it is no longer referenced, and the teardown
    still owed afterwards starts with the resource whose close failed.  A
    retry therefore closes nothing twice that had closed. *)
Theorem close_failure_leaves_the_rest (w : World) (s : State) :
  forall e s1,
    close w s = (inl e, s1) ->
    exists k : nat,
      (trace s1 = rev (firstn (S k) (teardown_calls (mgr s))) ++ trace s)%list
      /\ teardown_calls (mgr s1) = skipn k (teardown_calls (mgr s))
      /\ (k < length (teardown_calls (mgr s)))%nat.
Proof.
  destruct s as [m t l]; destruct m as [bt hl vw vh opw ob oc op].
  intros e s1. unfold close. unfold_monad. simpl.
  destruct opw, ob, oc, op; simpl; split_engine; intros H;
    try discriminate H.
  all: injection H as <- <-; unfold teardown_calls; simpl.
  all: first [ exists 0%nat; repeat split; first [reflexivity | simpl; lia]
             | exists 1%nat; repeat split; first [reflexivity | simpl; lia]
             | exists 2%nat; repeat split; first [reflexivity | simpl; lia]
             | exists 3%nat; repeat split; first [reflexivity | simpl; lia] ].
Qed.

(** *** The chain of references *)

Lemma ensure_browser_chain (w : World) (s : State) :
  session_chain (mgr s) = true ->
  session_chain (mgr (snd (ensure_browser w s))) = true.
Proof.
  destruct s as [m t l]; destruct m as [bt hl vw vh opw ob oc op].
  unfold ensure_browser. unfold_monad. simpl.
  destruct opw, ob, oc, op; simpl; intros Hchain; try discriminate Hchain;
    split_engine; reflexivity.
Qed.

Lemma close_chain (w : World) (s : State) :
  session_chain (mgr s) = true ->
  session_chain (mgr (snd (close w s))) = true.
Proof.
  destruct s as [m t l]; destruct m as [bt hl vw vh opw ob oc op].
  unfold close. unfold_monad. simpl.
  destruct opw, ob, oc, op; simpl; intros Hchain; try discriminate Hchain;
    split_engine; reflexivity.
Qed.

Lemma session_chain_config (m : PlaywrightManager) (bt : string) (hl : bool) :
  session_chain
    {| browser_type := bt; headless := hl;
       viewport_width := viewport_width m; viewport_height := viewport_height m;
       playwright := playwright m; browser := browser m;
       context := context m; page := page m |}
  = session_chain m.
Proof.
  reflexivity.
Qed.

Lemma pdf_reconfigure_chain (w : World) (s : State) :
  session_chain (mgr s) = true ->
  session_chain (mgr (snd (pdf_reconfigure w s))) = true.
Proof.
  intros Hchain. unfold pdf_reconfigure. unfold bind at 1, self.
  destruct (negb (String.eqb (browser_type (mgr s)) "chromium")
            || negb (headless (mgr s))).
  - unfold bind at 1. unfold bind at 1.
    pose proof (close_chain w s Hchain) as Hclose.
    destruct (close w s) as [[e | []] s0]; simpl in *.
    + exact Hclose.
    + unfold_monad. simpl.
      match goal with
      | |- context [ensure_browser w ?s2] =>
          apply (ensure_browser_chain w s2)
      end.
      simpl. exact Hclose.
  - unfold_monad. apply ensure_browser_chain. exact Hchain.
Qed.

Lemma for_each_invariant {A : Type} (Inv : State -> Prop)
    (body : A -> M unit) (items : list A) :
  (forall x w s, In x items -> Inv s -> Inv (snd (body x w s))) ->
  forall w s, Inv s -> Inv (snd (for_each items body w s)).
Proof.
  induction items as [| x rest IH]; intros Hbody w s Hs; simpl.
  - exact Hs.
  - unfold bind.
    pose proof (Hbody x w s (or_introl eq_refl) Hs) as Hx.
    destruct (body x w s) as [[e | []] s1]; simpl in *.
    + exact Hx.
    + apply IH; [| exact Hx]. intros y w' s' Hy. apply Hbody. right. exact Hy.
Qed.

Lemma close_failure_leaves_the_rest_witness :
  exists k : nat,
    (trace (snd (close context_gone_world (live_state false)))
     = rev (firstn (S k) (teardown_calls (mgr (live_state false))))
       ++ trace (live_state false))%list
    /\ teardown_calls (mgr (snd (close context_gone_world (live_state false))))
       = skipn k (teardown_calls (mgr (live_state false)))
    /\ (k < length (teardown_calls (mgr (live_state false))))%nat.
Proof.
  apply (close_failure_leaves_the_rest context_gone_world (live_state false)
           target_closed).
  vm_compute. reflexivity.
Defined.

(** ** Further properties of the tools *)

(** *** Killing browser processes *)

Lemma kill_all_chrome_instances_loop :
  kill_all_chrome_instances
  = (log INFO "Attempting to kill all Chrome instances generated via Playwright." ;;
     try_except
       (procs <- call ProcessIter ;;
        for_each procs terminate_if_playwright_chrome ;;
        ret "All Chrome instances generated via Playwright have been terminated.")
       (fun e =>
          let error_msg := "Failed to kill Chrome instances: " ++ exn_str e in
          log ERROR error_msg ;;
          ret error_msg)).
Proof.
  reflexivity.
Qed.

Lemma terminate_step (procs : list Process) (p : Process) (w : World)
    (s : State) :
  In p procs ->
  mgr (snd (terminate_if_playwright_chrome p w s)) = mgr s
  /\ grown_by
       (fun c =>
          is_process_call c = true
          /\ forall pid, terminated_pid c = Some pid ->
               exists q, In q procs /\ is_playwright_chrome q = true
                         /\ proc_pid q = pid)
       (trace s) (trace (snd (terminate_if_playwright_chrome p w s))).
Proof.
  intros Hin. unfold terminate_if_playwright_chrome. unfold_monad.
  destruct (is_playwright_chrome p) eqn:Hmatch; simpl.
  - destruct (engine w unit (trace s) (Terminate (proc_pid p))) as [e | []];
      simpl.
    + destruct (psutil_gone_or_denied (exn_class e)); simpl.
      all: split; [reflexivity |]; grow; split; [reflexivity |].
      all: intros pid Hpid; injection Hpid as <-; exists p; auto.
    + split; [reflexivity |]. grow. split; [reflexivity |].
      intros pid Hpid. injection Hpid as <-. exists p. auto.
  - split; [reflexivity | apply grown_refl].
Qed.

(** X7. The kill tool never raises and never touches the session: it returns
    its confirmation or a "Failed to kill" message, leaves the manager as
    it was, calls nothing but the process table, and every process it
    terminates is one of the listed processes whose name contains
    "chrome" and whose executable path contains "playwright", letter case
    aside. *)
Theorem kill_all_chrome_instances_is_selective (w : World) (s : State) :
  let s' := snd (kill_all_chrome_instances w s) in
  (exists msg,
     fst (kill_all_chrome_instances w s) = inr msg
     /\ (msg = "All Chrome instances generated via Playwright have been terminated."
         \/ exists e, msg = "Failed to kill Chrome instances: " ++ exn_str e))
  /\ mgr s' = mgr s
  /\ grown_by
       (fun c =>
          is_process_call c = true
          /\ forall pid, terminated_pid c = Some pid ->
               exists procs q,
                 engine w _ (trace s) ProcessIter = inr procs
                 /\ In q procs /\ is_playwright_chrome q = true
                 /\ proc_pid q = pid)
       (trace s) (trace s').
Proof.
  rewrite kill_all_chrome_instances_loop. unfold_monad. simpl.
  destruct (engine w _ (trace s) ProcessIter) as [e | procs] eqn:Hiter; simpl.
  - split; [eexists; split; [reflexivity | right; eexists; reflexivity] |].
    split; [reflexivity |]. grow. split; [reflexivity |].
    intros pid Hpid. discriminate Hpid.
  - set (s0 := {| mgr := mgr s; trace := MkCall ProcessIter :: trace s;
                  logs := _ |}).
    pose proof
      (for_each_invariant
         (fun st =>
            mgr st = mgr s
            /\ grown_by
                 (fun c =>
                    is_process_call c = true
                    /\ forall pid, terminated_pid c = Some pid ->
                         exists q, In q procs /\ is_playwright_chrome q = true
                                   /\ proc_pid q = pid)
                 (trace s0) (trace st))
         terminate_if_playwright_chrome procs) as Hloop.
    assert (Hstep : forall x w0 st, In x procs ->
              mgr st = mgr s
              /\ grown_by
                   (fun c =>
                      is_process_call c = true
                      /\ forall pid, terminated_pid c = Some pid ->
                           exists q, In q procs
                                     /\ is_playwright_chrome q = true
                                     /\ proc_pid q = pid)
                   (trace s0) (trace st) ->
              mgr (snd (terminate_if_playwright_chrome x w0 st)) = mgr s
              /\ grown_by
                   (fun c =>
                      is_process_call c = true
                      /\ forall pid, terminated_pid c = Some pid ->
                           exists q, In q procs
                                     /\ is_playwright_chrome q = true
                                     /\ proc_pid q = pid)
                   (trace s0)
                   (trace (snd (terminate_if_playwright_chrome x w0 st)))).
    { intros x w0 st Hin [Hm Hg].
      destruct (terminate_step procs x w0 st Hin) as [Hm' Hg'].
      split; [congruence |]. eapply grown_by_trans; eassumption. }
    specialize (Hloop Hstep w s0 (conj eq_refl (grown_refl _ _))).
    assert (Hlift : forall t1,
              grown_by
                (fun c =>
                   is_process_call c = true
                   /\ forall pid, terminated_pid c = Some pid ->
                        exists q, In q procs /\ is_playwright_chrome q = true
                                  /\ proc_pid q = pid)
                (trace s0) t1 ->
              grown_by
                (fun c =>
                   is_process_call c = true
                   /\ forall pid, terminated_pid c = Some pid ->
                        exists procs0 q,
                          @inr Exn (list Process) procs = inr procs0
                          /\ In q procs0 /\ is_playwright_chrome q = true
                          /\ proc_pid q = pid)
                (trace s) t1).
    { intros t1 Hg. apply grown_by_trans with (t2 := trace s0).
      - simpl. apply grown_cons; [| apply grown_refl]. split; [reflexivity |].
        intros pid Hpid. discriminate Hpid.
      - eapply grown_by_weaken; [| exact Hg].
        intros c [Hc Hpid]. split; [exact Hc |].
        intros pid H. destruct (Hpid pid H) as (q & Hq).
        exists procs, q. split; [reflexivity | exact Hq]. }
    destruct (for_each procs terminate_if_playwright_chrome w s0)
      as [[e | []] s1]; simpl in *; destruct Hloop as [Hm Hg].
    + split; [eexists; split; [reflexivity | right; eexists; reflexivity] |].
      split; [exact Hm |]. apply Hlift. exact Hg.
    + split; [eexists; split; [reflexivity | left; reflexivity] |].
      split; [exact Hm |]. apply Hlift. exact Hg.
Qed.

Lemma terminate_loop_completes (w : World) :
  (forall h pid e,
     engine w unit h (Terminate pid) = inl e ->
     psutil_gone_or_denied (exn_class e) = true) ->
  forall procs s,
    exists s',
      for_each procs terminate_if_playwright_chrome w s = (inr tt, s')
      /\ (trace s'
          = rev (map (fun p => MkCall (Terminate (proc_pid p)))
                   (filter is_playwright_chrome procs))
            ++ trace s)%list.
Proof.
  intros Hcaught. induction procs as [| p rest IH]; intros s; simpl.
  - eexists. split; reflexivity.
  - unfold bind at 1. unfold terminate_if_playwright_chrome at 1.
    unfold_monad. destruct (is_playwright_chrome p); simpl.
    + destruct (engine w unit (trace s) (Terminate (proc_pid p)))
        as [e | []] eqn:Hterm; simpl.
      * rewrite (Hcaught _ _ _ Hterm). simpl.
        match goal with
        | |- context [for_each rest _ w ?st] =>
            destruct (IH st) as (s' & Hrun & Htrace)
        end.
        exists s'. split; [exact Hrun |]. rewrite Htrace. simpl.
        rewrite <- app_assoc. reflexivity.
      * match goal with
        | |- context [for_each rest _ w ?st] =>
            destruct (IH st) as (s' & Hrun & Htrace)
        end.
        exists s'. split; [exact Hrun |]. rewrite Htrace. simpl.
        rewrite <- app_assoc. reflexivity.
    + destruct (IH s) as (s' & Hrun & Htrace).
      exists s'. split; [exact Hrun | exact Htrace].
Qed.

(** X8. A process that has gone, or that may not be signalled, does not stop
    the loop: when the process table can be read and [terminate()] fails,
    if at all, only with [NoSuchProcess] or [AccessDenied], the tool
    sends [terminate()] to every matching process, in the order of the
    table, and returns its confirmation. *)
Theorem kill_all_chrome_instances_reaches_every_match
    (w : World) (s : State) (procs : list Process) :
  engine w _ (trace s) ProcessIter = inr procs ->
  (forall h pid e,
     engine w unit h (Terminate pid) = inl e ->
     psutil_gone_or_denied (exn_class e) = true) ->
  fst (kill_all_chrome_instances w s)
  = inr "All Chrome instances generated via Playwright have been terminated."
  /\ (trace (snd (kill_all_chrome_instances w s))
      = rev (map (fun p => MkCall (Terminate (proc_pid p)))
               (filter is_playwright_chrome procs))
        ++ MkCall ProcessIter :: trace s)%list.
Proof.
  intros Hiter Hcaught. rewrite kill_all_chrome_instances_loop.
  unfold_monad. simpl. rewrite Hiter.
  match goal with
  | |- context [for_each procs _ w ?st] =>
      destruct (terminate_loop_completes w Hcaught procs st)
        as (s' & Hrun & Htrace)
  end.
  rewrite Hrun. simpl. split; [reflexivity | exact Htrace].
Qed.

Lemma kill_all_chrome_instances_reaches_every_match_witness :
  fst (kill_all_chrome_instances process_world state0)
  = inr "All Chrome instances generated via Playwright have been terminated."
  /\ (trace (snd (kill_all_chrome_instances process_world state0))
      = rev (map (fun p => MkCall (Terminate (proc_pid p)))
               (filter is_playwright_chrome sample_processes))
        ++ MkCall ProcessIter :: trace state0)%list.
Proof.
  apply kill_all_chrome_instances_reaches_every_match.
  - reflexivity.
  - intros h pid e. simpl. destruct (pid =? 11).
    + intros H. injection H as <-. reflexivity.
    + intros H. discriminate H.
Defined.

(** *** How a tool touches the session *)

(** Apart from Close and the kill tool, a tool either stops at its
    validation with the state untouched, or acquires the page and from
    then on leaves the manager alone and makes no construction or
    teardown call. *)
Lemma tool_anatomy (t : Tool) (w : World) (s : State) :
  is_close_tool t = false -> is_kill_tool t = false ->
  snd (run_tool t w s) = s
  \/ exists ra s1,
       acquisition t w s = (ra, s1)
       /\ mgr (snd (run_tool t w s)) = mgr s1
       /\ grown_by (fun c => is_session_call c = false)
            (trace s1) (trace (snd (run_tool t w s))).
Proof.
  destruct t; simpl; intros Hclose Hkill;
    try discriminate Hclose; try discriminate Hkill.
  all: unfold_tools.
  all: run_tool_cases.
  all: try match goal with
           | |- context [match ?v with
                         | PyNone => _ | PyBool _ => _
                         | PyInt _ => _ | PyStr _ => _ end] =>
               destruct v; simpl; split_engine
           end.
  all: first
         [ left; reflexivity
         | right; do 2 eexists; split; [reflexivity |];
           split; [reflexivity |]; grow; reflexivity ].
Qed.

Lemma session_call_not_teardown (c : Call) :
  is_session_call c = false -> is_teardown c = false.
Proof.
  unfold is_session_call. intros H. apply orb_false_iff in H. tauto.
Qed.

Lemma construction_not_teardown (c : Call) :
  is_construction c = true -> is_teardown c = false.
Proof.
  destruct c as [T op]. destruct op; simpl; intros H;
    first [reflexivity | discriminate H].
Qed.

Lemma process_call_not_teardown (c : Call) :
  is_process_call c = true -> is_teardown c = false.
Proof.
  destruct c as [T op]. destruct op; simpl; intros H;
    first [reflexivity | discriminate H].
Qed.

Lemma kill_all_chrome_instances_frame (w : World) (s : State) :
  mgr (snd (kill_all_chrome_instances w s)) = mgr s
  /\ grown_by (fun c => is_process_call c = true)
       (trace s) (trace (snd (kill_all_chrome_instances w s))).
Proof.
  rewrite kill_all_chrome_instances_loop. unfold_monad. simpl.
  destruct (engine w _ (trace s) ProcessIter) as [e | procs]; simpl.
  - split; [reflexivity |]. grow. reflexivity.
  - set (s0 := {| mgr := mgr s; trace := MkCall ProcessIter :: trace s;
                  logs := _ |}).
    pose proof
      (for_each_invariant
         (fun st =>
            mgr st = mgr s
            /\ grown_by (fun c => is_process_call c = true)
                 (trace s) (trace st))
         terminate_if_playwright_chrome procs) as Hloop.
    assert (Hinit : mgr s0 = mgr s
                    /\ grown_by (fun c => is_process_call c = true)
                         (trace s) (trace s0)).
    { split; [reflexivity |]. simpl. grow. reflexivity. }
    assert (Hstep : forall x w0 st, In x procs ->
              mgr st = mgr s
              /\ grown_by (fun c => is_process_call c = true)
                   (trace s) (trace st) ->
              mgr (snd (terminate_if_playwright_chrome x w0 st)) = mgr s
              /\ grown_by (fun c => is_process_call c = true) (trace s)
                   (trace (snd (terminate_if_playwright_chrome x w0 st)))).
    { intros x w0 st Hin [Hm Hg].
      destruct (terminate_step procs x w0 st Hin) as [Hm' Hg'].
      split; [congruence |]. eapply grown_by_trans; [exact Hg |].
      eapply grown_by_weaken; [| exact Hg']. intros c [Hc _]. exact Hc. }
    specialize (Hloop Hstep w s0 Hinit).
    destruct (for_each procs terminate_if_playwright_chrome w s0)
      as [[e | []] s1]; simpl in *; exact Hloop.
Qed.

(** X9. Every tool keeps the chain of references, whatever the engine does:
    after any tool call, returned or raised, a page is held only with its
    context, a context only with its browser, a browser only with
    playwright. *)
Theorem tools_keep_session_chain (t : Tool) (w : World) (s : State) :
  session_chain (mgr s) = true ->
  session_chain (mgr (snd (run_tool t w s))) = true.
Proof.
  intros Hchain.
  destruct (is_close_tool t) eqn:Hclose.
  { destruct t; try discriminate Hclose. simpl.
    unfold returning_str, browser_close, bind.
    pose proof (close_chain w s Hchain) as H.
    destruct (close w s) as [[e | []] s0]; simpl in *; exact H. }
  destruct (is_kill_tool t) eqn:Hkill.
  { destruct t; try discriminate Hkill. simpl.
    unfold returning_str, bind.
    destruct (kill_all_chrome_instances_frame w s) as [Hm _].
    destruct (kill_all_chrome_instances w s) as [[e | r] s0]; simpl in *;
      rewrite Hm; exact Hchain. }
  destruct (tool_anatomy t w s Hclose Hkill) as [Hsame | (ra & s1 & Hacq & Hm & _)].
  - rewrite Hsame. exact Hchain.
  - rewrite Hm.
    assert (Hs1 : s1 = snd (acquisition t w s)) by (rewrite Hacq; reflexivity).
    rewrite Hs1. destruct t; simpl;
      first [ apply ensure_browser_chain | apply pdf_reconfigure_chain ];
      exact Hchain.
Qed.

Lemma tools_keep_session_chain_witness :
  session_chain
    (mgr (snd (run_tool (Browser_Navigate (PyStr "https://example.com"))
                 no_browser_world state0)))
  = true.
Proof.
  apply tools_keep_session_chain. reflexivity.
Defined.

(** X10. Only Save-As-PDF changes the configuration and only Close and
    Save-As-PDF tear anything down: any other tool, whatever its outcome,
    leaves browser type, headless flag and viewport as they were and
    makes no close or stop call. *)
Theorem only_close_and_pdf_tear_down (t : Tool) (w : World) (s : State) :
  is_pdf_tool t = false ->
  same_config (mgr s) (mgr (snd (run_tool t w s)))
  /\ (is_close_tool t = false ->
      grown_by (fun c => is_teardown c = false)
        (trace s) (trace (snd (run_tool t w s)))).
Proof.
  intros Hpdf.
  destruct (is_close_tool t) eqn:Hclose.
  { destruct t; try discriminate Hclose. simpl.
    unfold returning_str, browser_close, bind.
    pose proof (close_outcome w s) as H.
    destruct (close w s) as [[e | []] s0]; simpl in *.
    - split; [tauto | discriminate].
    - split; [tauto | discriminate]. }
  destruct (is_kill_tool t) eqn:Hkill.
  { destruct t; try discriminate Hkill. simpl.
    unfold returning_str, bind.
    destruct (kill_all_chrome_instances_frame w s) as [Hm Hg].
    destruct (kill_all_chrome_instances w s) as [[e | r] s0]; simpl in *.
    all: split; [rewrite Hm; repeat split |].
    all: intros _; eapply grown_by_weaken; [| exact Hg];
      apply process_call_not_teardown. }
  destruct (tool_anatomy t w s Hclose Hkill)
    as [Hsame | (ra & s1 & Hacq & Hm & Hg)].
  - rewrite Hsame. split; [repeat split | intros _; apply grown_refl].
  - assert (Hens : ensure_browser w s = (ra, s1)).
    { destruct t; simpl in Hacq; try exact Hacq; discriminate Hpdf. }
    apply ensure_browser_frame in Hens. destruct Hens as [Hcfg Hcons].
    rewrite Hm. split; [exact Hcfg |]. intros _.
    eapply grown_by_trans.
    + eapply grown_by_weaken; [| exact Hcons]. apply construction_not_teardown.
    + eapply grown_by_weaken; [| exact Hg]. apply session_call_not_teardown.
Qed.

Lemma only_close_and_pdf_tear_down_witness :
  same_config (mgr (live_state true))
    (mgr (snd (run_tool (Browser_Screenshot PyNone PyNone) blank_world
                 (live_state true))))
  /\ (is_close_tool (Browser_Screenshot PyNone PyNone) = false ->
      grown_by (fun c => is_teardown c = false)
        (trace (live_state true))
        (trace (snd (run_tool (Browser_Screenshot PyNone PyNone) blank_world
                       (live_state true))))).
Proof.
  apply only_close_and_pdf_tear_down. reflexivity.
Defined.

(** *** Navigation *)

(** X11. Once the page is acquired, Navigate with a non-empty URL never
    raises.  A failing [goto] is reported and the wait for the load event
    is skipped; a time-out of that wait is reported as a navigation error
    as well, although the page has navigated; otherwise the tool returns
    "Navigated to <url>".  The manager is not touched. *)
Theorem browser_navigate_outcomes
    (w : World) (s s1 : State) (p : Handle) (url : string) :
  url <> "" ->
  ensure_browser w s = (inr p, s1) ->
  exists r s',
    browser_navigate (PyStr url) w s = (inr r, s')
    /\ mgr s' = mgr s1
    /\ match engine w _ (trace s1) (Goto p url "domcontentloaded") with
       | inl e =>
           r = "Error navigating to " ++ url ++ ": " ++ exn_str e
           /\ trace s' = MkCall (Goto p url "domcontentloaded") :: trace s1
       | inr _ =>
           trace s'
           = MkCall (WaitForLoadState p "load" 5000)
             :: MkCall (Goto p url "domcontentloaded") :: trace s1
           /\ match engine w _
                      (MkCall (Goto p url "domcontentloaded") :: trace s1)
                      (WaitForLoadState p "load" 5000) with
              | inl e => r = "Error navigating to " ++ url ++ ": " ++ exn_str e
              | inr _ => r = "Navigated to " ++ url
              end
       end.
Proof.
  intros Hurl Hacq. unfold browser_navigate.
  assert (Hvalid : not_nonempty_str (PyStr url) = false).
  { destruct url; [congruence | reflexivity]. }
  rewrite Hvalid. change (py_str (PyStr url)) with url.
  unfold_monad. rewrite Hacq. simpl. split_engine.
  all: do 2 eexists; split; [reflexivity |]; split; [reflexivity |].
  all: repeat split.
Qed.

Lemma browser_navigate_outcomes_witness :
  exists r s',
    browser_navigate (PyStr "https://example.com") blank_world state0
    = (inr r, s')
    /\ mgr s' = mgr (snd (ensure_browser blank_world state0))
    /\ match engine blank_world _
               (trace (snd (ensure_browser blank_world state0)))
               (Goto 4%nat "https://example.com" "domcontentloaded") with
       | inl e =>
           r = "Error navigating to " ++ "https://example.com" ++ ": "
               ++ exn_str e
           /\ trace s'
              = MkCall (Goto 4%nat "https://example.com" "domcontentloaded")
                :: trace (snd (ensure_browser blank_world state0))
       | inr _ =>
           trace s'
           = MkCall (WaitForLoadState 4%nat "load" 5000)
             :: MkCall (Goto 4%nat "https://example.com" "domcontentloaded")
             :: trace (snd (ensure_browser blank_world state0))
           /\ match engine blank_world _
                      (MkCall (Goto 4%nat "https://example.com"
                                 "domcontentloaded")
                       :: trace (snd (ensure_browser blank_world state0)))
                      (WaitForLoadState 4%nat "load" 5000) with
              | inl e =>
                  r = "Error navigating to " ++ "https://example.com" ++ ": "
                      ++ exn_str e
              | inr _ => r = "Navigated to " ++ "https://example.com"
              end
       end.
Proof.
  apply (browser_navigate_outcomes blank_world state0
           (snd (ensure_browser blank_world state0)) 4%nat
           "https://example.com").
  - discriminate.
  - vm_compute. reflexivity.
Defined.

(** *** Counting by XPath *)

(** X12. Find-By-XPath queries the expression itself when it starts with "//"
    or "xpath=", and "xpath=" followed by the expression otherwise, so the
    selector sent always starts with one of the two; the count reported
    is the number of handles the engine returned, and the message quotes
    the selector that was sent. *)
Theorem browser_find_by_xpath_normalises
    (w : World) (s s1 : State) (p : Handle) (xpath : string) :
  xpath <> "" ->
  ensure_browser w s = (inr p, s1) ->
  exists q,
    (q = xpath \/ q = "xpath=" ++ xpath)
    /\ (String.prefix "//" q = true \/ String.prefix "xpath=" q = true)
    /\ (String.prefix "//" xpath = true \/ String.prefix "xpath=" xpath = true
        -> q = xpath)
    /\ trace (snd (browser_find_by_xpath (PyStr xpath) w s))
       = MkCall (QuerySelectorAll p q) :: trace s1
    /\ forall found,
         engine w _ (trace s1) (QuerySelectorAll p q) = inr found ->
         fst (browser_find_by_xpath (PyStr xpath) w s)
         = inr ("Found " ++ dec (Z.of_nat (length found))
                ++ " elements matching XPath '" ++ q ++ "'").
Proof.
  intros Hx Hacq. unfold browser_find_by_xpath.
  assert (Hvalid : not_nonempty_str (PyStr xpath) = false).
  { destruct xpath; [congruence | reflexivity]. }
  rewrite Hvalid. change (py_str (PyStr xpath)) with xpath.
  destruct (String.prefix "//" xpath) eqn:Hslash;
    [| destruct (String.prefix "xpath=" xpath) eqn:Hpre ]; simpl negb;
    cbv iota; simpl andb; cbv iota.
  - exists xpath. unfold_monad. rewrite Hacq. simpl.
    split; [left; reflexivity |]. split; [left; exact Hslash |].
    split; [reflexivity |].
    destruct (engine w _ (trace s1) (QuerySelectorAll p xpath)); simpl;
      (split; [reflexivity |]); intros found H;
      [discriminate H | injection H as <-; reflexivity].
  - exists xpath. unfold_monad. rewrite Hacq. simpl.
    split; [left; reflexivity |]. split; [right; exact Hpre |].
    split; [reflexivity |].
    destruct (engine w _ (trace s1) (QuerySelectorAll p xpath)); simpl;
      (split; [reflexivity |]); intros found H;
      [discriminate H | injection H as <-; reflexivity].
  - exists ("xpath=" ++ xpath). unfold_monad. rewrite Hacq. simpl.
    split; [right; reflexivity |]. split.
    { right. clear. simpl. destruct xpath; reflexivity. }
    split; [intros [H | H]; discriminate H |].
    match goal with
    | |- context [engine w ?T ?h ?op] => destruct (engine w T h op)
    end; simpl;
      (split; [reflexivity |]); intros found H;
      [discriminate H | injection H as <-; reflexivity].
Qed.

Lemma browser_find_by_xpath_normalises_witness :
  exists q,
    (q = "div" \/ q = "xpath=" ++ "div")
    /\ (String.prefix "//" q = true \/ String.prefix "xpath=" q = true)
    /\ (String.prefix "//" "div" = true \/ String.prefix "xpath=" "div" = true
        -> q = "div")
    /\ trace (snd (browser_find_by_xpath (PyStr "div") rich_world state0))
       = MkCall (QuerySelectorAll 4%nat q)
         :: trace (snd (ensure_browser rich_world state0))
    /\ forall found,
         engine rich_world _ (trace (snd (ensure_browser rich_world state0)))
           (QuerySelectorAll 4%nat q) = inr found ->
         fst (browser_find_by_xpath (PyStr "div") rich_world state0)
         = inr ("Found " ++ dec (Z.of_nat (length found))
                ++ " elements matching XPath '" ++ q ++ "'").
Proof.
  apply (browser_find_by_xpath_normalises rich_world state0
           (snd (ensure_browser rich_world state0)) 4%nat "div").
  - discriminate.
  - vm_compute. reflexivity.
Defined.

(** *** Tools that look the element up first *)

(** X13. Scroll-To-Element, Get-Element-HTML, Get-Element-Text, Clear-Field
    and Save-Element-As-HTML, called with a non-empty string, ask the
    engine for the element first; when nothing matches they return their
    not-found message and do nothing else: no script is evaluated, no
    field filled, no file written, and the manager is left alone. *)
Theorem lookup_tools_stop_when_nothing_matches
    (t : Tool) (w : World) (s s1 : State) (p : Handle) (v q : PyVal) :
  lookup_argument t = Some v ->
  nonempty_string v ->
  lookup_selector t = Some q ->
  ensure_browser w s = (inr p, s1) ->
  engine w _ (trace s1) (QuerySelector p q) = inr None ->
  exists s',
    run_tool t w s = (inr (PyStr (not_found_message t)), s')
    /\ trace s' = MkCall (QuerySelector p q) :: trace s1
    /\ mgr s' = mgr s1.
Proof.
  intros Harg Hvalid Hsel Hacq Hnone.
  apply nonempty_string_valid in Hvalid.
  destruct t; simpl in Harg, Hsel; try discriminate Harg;
    injection Harg as <-; injection Hsel as <-; simpl.
  all: unfold_tools; rewrite Hvalid; unfold_monad; rewrite Hacq; simpl.
  all: try (destruct (negb (truthy file_path)); simpl).
  all: rewrite Hnone; simpl.
  all: eexists; split; [reflexivity |]; split; reflexivity.
Qed.

Lemma lookup_tools_stop_when_nothing_matches_witness :
  exists s',
    run_tool (Clear_Field (PyStr "//input")) blank_world state0
    = (inr (PyStr (not_found_message (Clear_Field (PyStr "//input")))), s')
    /\ trace s'
       = MkCall (QuerySelector 4%nat (PyStr ("xpath=" ++ py_str (PyStr "//input"))))
         :: trace (snd (ensure_browser blank_world state0))
    /\ mgr s' = mgr (snd (ensure_browser blank_world state0)).
Proof.
  apply (lookup_tools_stop_when_nothing_matches (Clear_Field (PyStr "//input"))
           blank_world state0 (snd (ensure_browser blank_world state0)) 4%nat
           (PyStr "//input")).
  - reflexivity.
  - exists "//input". split; [reflexivity | discriminate].
  - reflexivity.
  - vm_compute. reflexivity.
  - reflexivity.
Defined.

(** *** A path supplied by the caller *)

(** X14. Save-Element-As-HTML, Save-Page-As-HTML and Save-Page-Screenshot,
    given a non-empty string as path, write to that path and to no
    other, whatever the outcome of the call. *)
Theorem save_tools_write_to_the_given_path
    (t : Tool) (w : World) (s : State) (path : string) :
  explicit_path t = Some path ->
  grown_by (fun c => forall q, written_path c = Some q -> q = PyStr path)
    (trace s) (trace (snd (run_tool t w s))).
Proof.
  intros Hpath.
  pose proof (ensure_browser_writes_nothing w s) as Hens.
  assert (Hsilent : forall t0 t1,
            grown_by (fun c => written_path c = None) t0 t1 ->
            grown_by (fun c => forall q, written_path c = Some q ->
                                 q = PyStr path) t0 t1).
  { intros t0 t1. apply grown_by_weaken. intros c Hc q Hq. congruence. }
  destruct t; simpl in Hpath; try discriminate Hpath.
  all: destruct file_path as [| b | z | str]; try discriminate Hpath.
  all: destruct str as [| a str]; simpl in Hpath; try discriminate Hpath.
  all: injection Hpath as <-.
  all: simpl; unfold_tools; unfold_monad; simpl.
  all: repeat match goal with
         | |- context [if ?b then _ else _] =>
             lazymatch b with
             | context [engine] => fail
             | _ => destruct b eqn:?
             end
         end; simpl.
  all: try apply grown_refl.
  all: destruct (ensure_browser w s) as [[e | p] s1] eqn:Hacq;
    specialize (Hens _ _ eq_refl); simpl.
  all: split_engine.
  all: repeat match goal with
         | |- context [match ?x with Some _ => _ | None => _ end] =>
             destruct x; simpl; split_engine
         | |- context [if ?b then _ else _] =>
             destruct b eqn:?; simpl; split_engine
         end.
  all: repeat first
         [ apply Hsilent; exact Hens
         | apply grown_cons;
           [ intros ? Hq; simpl in Hq;
             first [ discriminate Hq | injection Hq as <-; reflexivity ]
           | ] ].
Qed.

Lemma save_tools_write_to_the_given_path_witness :
  grown_by
    (fun c => forall q, written_path c = Some q -> q = PyStr "/home/me/page.html")
    (trace state0)
    (trace (snd (run_tool (Save_Page_As_HTML (PyStr "/home/me/page.html"))
                   blank_world state0))).
Proof.
  apply save_tools_write_to_the_given_path. reflexivity.
Defined.

(** X15. Save-Page-Screenshot given a path that is truthy and not a string
    raises [TypeError] to its caller, after the page has been acquired
    and before any screenshot is taken. *)
Theorem save_page_screenshot_rejects_non_string_path
    (w : World) (s s1 : State) (p : Handle) (file_path : PyVal) :
  truthy file_path = true ->
  isinstance_str file_path = false ->
  ensure_browser w s = (inr p, s1) ->
  exists e s',
    save_page_screenshot file_path w s = (inl e, s')
    /\ exn_class e = TypeError
    /\ trace s' = trace s1 /\ mgr s' = mgr s1.
Proof.
  intros Htruthy Hstr Hacq. unfold save_page_screenshot. unfold_monad.
  rewrite Hacq. simpl. rewrite Htruthy. simpl.
  destruct file_path; try discriminate Hstr; simpl.
  all: do 2 eexists; repeat split.
Qed.

Lemma save_page_screenshot_rejects_non_string_path_witness :
  exists e s',
    save_page_screenshot (PyInt 5) blank_world state0 = (inl e, s')
    /\ exn_class e = TypeError
    /\ trace s' = trace (snd (ensure_browser blank_world state0))
    /\ mgr s' = mgr (snd (ensure_browser blank_world state0)).
Proof.
  apply (save_page_screenshot_rejects_non_string_path blank_world state0
           (snd (ensure_browser blank_world state0)) 4%nat (PyInt 5)).
  - reflexivity.
  - reflexivity.
  - vm_compute. reflexivity.
Defined.

(** *** Tools that let exceptions through *)

(** X16. Get-Cookies never returns a value: every call ends in an exception.
    When the page is acquired and the engine hands over the cookies, the
    exception is the [NameError] for the module [json], which the file
    never imports. *)
Theorem get_cookies_always_raises (w : World) (s : State) :
  (exists e, fst (get_cookies w s) = inl e)
  /\ forall p s1 cookies,
       ensure_browser w s = (inr p, s1) ->
       engine w _ (trace s1) (Cookies p) = inr cookies ->
       fst (get_cookies w s)
       = inl (mkExn NameError "name 'json' is not defined").
Proof.
  unfold get_cookies. unfold_monad. split.
  - destruct (ensure_browser w s) as [[e | p] s1]; simpl.
    + eexists. reflexivity.
    + split_engine; eexists; reflexivity.
  - intros p s1 cookies Hacq Hcookies. rewrite Hacq. simpl.
    rewrite Hcookies. reflexivity.
Qed.

Lemma get_cookies_always_raises_witness :
  fst (get_cookies blank_world state0)
  = inl (mkExn NameError "name 'json' is not defined").
Proof.
  refine (proj2 (get_cookies_always_raises blank_world state0)
            4%nat (snd (ensure_browser blank_world state0)) [] _ _).
  - vm_compute. reflexivity.
  - reflexivity.
Defined.



(** X18. Go-Back, Reload, Get-Current-URL, Get-Page-Content, Get-Page-HTML,
    Get-Page-Title and Clear-Browser-Data have no handler: once the page
    is acquired, an exception the caller sees is exactly the one the last
    engine call raised, unchanged, and nothing is logged about it. *)
Theorem unguarded_tools_pass_engine_exceptions_on
    (t : Tool) (w : World) (s s1 s' : State) (p : Handle) (e : Exn) :
  unguarded t = true ->
  ensure_browser w s = (inr p, s1) ->
  run_tool t w s = (inl e, s') ->
  mgr s' = mgr s1
  /\ (forall lvl msg, In (lvl, msg) (logs s') -> lvl = ERROR ->
      In (lvl, msg) (logs s1))
  /\ exists (T : Type) (op : Op T) (history : list Call),
       trace s' = MkCall op :: history
       /\ engine w T history op = inl e.
Proof.
  intros Hun Hacq. destruct t; try discriminate Hun; simpl.
  all: unfold_tools; unfold_monad; rewrite Hacq; simpl; split_engine.
  all: intros H; try discriminate H; injection H as <- <-; simpl.
  all: split; [reflexivity |].
  all: split;
    [ intros lvl msg Hin Hlvl; subst lvl;
      repeat (destruct Hin as [Hin | Hin]; [discriminate Hin |]); exact Hin
      || exact Hin
    | do 3 eexists; split; [reflexivity | eassumption] ].
Qed.

Lemma unguarded_tools_pass_engine_exceptions_on_witness :
  exists (T : Type) (op : Op T) (history : list Call),
    trace (snd (run_tool Browser_Go_Back stalled_world (live_state false)))
    = MkCall op :: history
    /\ engine stalled_world T history op
       = inl (mkExn TimeoutError "Page.go_back: Timeout 30000ms exceeded.").
Proof.
  refine (proj2 (proj2 (unguarded_tools_pass_engine_exceptions_on
                          Browser_Go_Back stalled_world (live_state false)
                          (live_state false)
                          (snd (run_tool Browser_Go_Back stalled_world
                                  (live_state false)))
                          4%nat
                          (mkExn TimeoutError
                             "Page.go_back: Timeout 30000ms exceeded.")
                          _ _ _))).
  - reflexivity.
  - vm_compute. reflexivity.
  - vm_compute. reflexivity.
Defined.
